(** * weather_server.py: the NWS weather tools

    A shallow embedding of [src/weather_server.py]: the alert formatter, the
    two tools [get_alerts] and [get_forecast], the fetch helper
    [make_nws_request] and the two resource adapters.

    Python values are modelled as they reach the tools: the parsed JSON body
    is a value of [json]; [str] is a byte string holding the UTF-8 encoding;
    [float] is an IEEE binary64 datum.  A Python exception leaving a function
    is the [Raise] case of [result].  The only effect of the tools is the
    call of the HTTP client in [make_nws_request]; it is threaded through
    the monad [M], whose state is the list of the URLs passed to the
    client so far.  The client library and the service behind it are the
    environment: what a call gives is taken from an [upstream]. *)

From Stdlib Require Import ZArith String Ascii List Bool Lia.
From Stdlib Require Import DecimalString DecimalN.
From Stdlib Require Import Floats.SpecFloat.
Import ListNotations.

Local Open Scope string_scope.
Local Open Scope Z_scope.

(** ** Unicode data

    Code points are numbers; a Python [str] is held as the bytes of its
    UTF-8 encoding (a lone surrogate as its three bytes).  The two tables
    are those of the Unicode character database, version 14.0, that
    CPython 3.11 is built with. *)

Module Unicode.

Definition byte (n : Z) : ascii := ascii_of_nat (Z.to_nat n).

Definition code (c : ascii) : Z := Z.of_nat (nat_of_ascii c).

(** The UTF-8 encoding of a code point. *)
Definition encode (cp : Z) : string :=
  if cp <? 128 then String (byte cp) EmptyString
  else if cp <? 2048 then
    String (byte (192 + cp / 64)) (String (byte (128 + cp mod 64)) EmptyString)
  else if cp <? 65536 then
    String (byte (224 + cp / 4096))
   (String (byte (128 + cp / 64 mod 64)) (String (byte (128 + cp mod 64)) EmptyString))
  else
    String (byte (240 + cp / 262144))
   (String (byte (128 + cp / 4096 mod 64))
   (String (byte (128 + cp / 64 mod 64)) (String (byte (128 + cp mod 64)) EmptyString))).

(** The code point that a group of bytes encodes: a lead byte and its
    continuation bytes. *)
Definition decode (g : string) : option Z :=
  match g with
  | String a EmptyString => if code a <? 128 then Some (code a) else None
  | String a (String b EmptyString) =>
      if (192 <=? code a) && (code a <? 224)
      then Some ((code a - 192) * 64 + (code b - 128)) else None
  | String a (String b (String c EmptyString)) =>
      if (224 <=? code a) && (code a <? 240)
      then Some ((code a - 224) * 4096 + (code b - 128) * 64 + (code c - 128)) else None
  | String a (String b (String c (String d EmptyString))) =>
      if (240 <=? code a) && (code a <? 248)
      then Some ((code a - 240) * 262144 + (code b - 128) * 4096 +
                 (code c - 128) * 64 + (code d - 128))
      else None
  | _ => None
  end.

Fixpoint lookup {A : Type} (cp : Z) (table : list (Z * A)) : option A :=
  match table with
  | [] => None
  | (k, v) :: rest => if k =? cp then Some v else lookup cp rest
  end.

(** The code points above 127 that [str.upper] changes, each with the code
    points it becomes (one, two or three of them). *)
Definition to_upper : list (Z * list Z) :=
  [
   (181, [924]); (223, [83; 83]); (224, [192]); (225, [193]); (226, [194]); (227, [195]);
   (228, [196]); (229, [197]); (230, [198]); (231, [199]); (232, [200]); (233, [201]);
   (234, [202]); (235, [203]); (236, [204]); (237, [205]); (238, [206]); (239, [207]);
   (240, [208]); (241, [209]); (242, [210]); (243, [211]); (244, [212]); (245, [213]);
   (246, [214]); (248, [216]); (249, [217]); (250, [218]); (251, [219]); (252, [220]);
   (253, [221]); (254, [222]); (255, [376]); (257, [256]); (259, [258]); (261, [260]);
   (263, [262]); (265, [264]); (267, [266]); (269, [268]); (271, [270]); (273, [272]);
   (275, [274]); (277, [276]); (279, [278]); (281, [280]); (283, [282]); (285, [284]);
   (287, [286]); (289, [288]); (291, [290]); (293, [292]); (295, [294]); (297, [296]);
   (299, [298]); (301, [300]); (303, [302]); (305, [73]); (307, [306]); (309, [308]);
   (311, [310]); (314, [313]); (316, [315]); (318, [317]); (320, [319]); (322, [321]);
   (324, [323]); (326, [325]); (328, [327]); (329, [700; 78]); (331, [330]); (333, [332]);
   (335, [334]); (337, [336]); (339, [338]); (341, [340]); (343, [342]); (345, [344]);
   (347, [346]); (349, [348]); (351, [350]); (353, [352]); (355, [354]); (357, [356]);
   (359, [358]); (361, [360]); (363, [362]); (365, [364]); (367, [366]); (369, [368]);
   (371, [370]); (373, [372]); (375, [374]); (378, [377]); (380, [379]); (382, [381]);
   (383, [83]); (384, [579]); (387, [386]); (389, [388]); (392, [391]); (396, [395]);
   (402, [401]); (405, [502]); (409, [408]); (410, [573]); (414, [544]); (417, [416]);
   (419, [418]); (421, [420]); (424, [423]); (429, [428]); (432, [431]); (436, [435]);
   (438, [437]); (441, [440]); (445, [444]); (447, [503]); (453, [452]); (454, [452]);
   (456, [455]); (457, [455]); (459, [458]); (460, [458]); (462, [461]); (464, [463]);
   (466, [465]); (468, [467]); (470, [469]); (472, [471]); (474, [473]); (476, [475]);
   (477, [398]); (479, [478]); (481, [480]); (483, [482]); (485, [484]); (487, [486]);
   (489, [488]); (491, [490]); (493, [492]); (495, [494]); (496, [74; 780]); (498, [497]);
   (499, [497]); (501, [500]); (505, [504]); (507, [506]); (509, [508]); (511, [510]);
   (513, [512]); (515, [514]); (517, [516]); (519, [518]); (521, [520]); (523, [522]);
   (525, [524]); (527, [526]); (529, [528]); (531, [530]); (533, [532]); (535, [534]);
   (537, [536]); (539, [538]); (541, [540]); (543, [542]); (547, [546]); (549, [548]);
   (551, [550]); (553, [552]); (555, [554]); (557, [556]); (559, [558]); (561, [560]);
   (563, [562]); (572, [571]); (575, [11390]); (576, [11391]); (578, [577]); (583, [582]);
   (585, [584]); (587, [586]); (589, [588]); (591, [590]); (592, [11375]); (593, [11373]);
   (594, [11376]); (595, [385]); (596, [390]); (598, [393]); (599, [394]); (601, [399]);
   (603, [400]); (604, [42923]); (608, [403]); (609, [42924]); (611, [404]); (613, [42893]);
   (614, [42922]); (616, [407]); (617, [406]); (618, [42926]); (619, [11362]); (620, [42925]);
   (623, [412]); (625, [11374]); (626, [413]); (629, [415]); (637, [11364]); (640, [422]);
   (642, [42949]); (643, [425]); (647, [42929]); (648, [430]); (649, [580]); (650, [433]);
   (651, [434]); (652, [581]); (658, [439]); (669, [42930]); (670, [42928]); (837, [921]);
   (881, [880]); (883, [882]); (887, [886]); (891, [1021]); (892, [1022]); (893, [1023]);
   (912, [921; 776; 769]); (940, [902]); (941, [904]); (942, [905]); (943, [906]);
   (944, [933; 776; 769]); (945, [913]); (946, [914]); (947, [915]); (948, [916]);
   (949, [917]); (950, [918]); (951, [919]); (952, [920]); (953, [921]); (954, [922]);
   (955, [923]); (956, [924]); (957, [925]); (958, [926]); (959, [927]); (960, [928]);
   (961, [929]); (962, [931]); (963, [931]); (964, [932]); (965, [933]); (966, [934]);
   (967, [935]); (968, [936]); (969, [937]); (970, [938]); (971, [939]); (972, [908]);
   (973, [910]); (974, [911]); (976, [914]); (977, [920]); (981, [934]); (982, [928]);
   (983, [975]); (985, [984]); (987, [986]); (989, [988]); (991, [990]); (993, [992]);
   (995, [994]); (997, [996]); (999, [998]); (1001, [1000]); (1003, [1002]); (1005, [1004]);
   (1007, [1006]); (1008, [922]); (1009, [929]); (1010, [1017]); (1011, [895]); (1013, [917]);
   (1016, [1015]); (1019, [1018]); (1072, [1040]); (1073, [1041]); (1074, [1042]);
   (1075, [1043]); (1076, [1044]); (1077, [1045]); (1078, [1046]); (1079, [1047]);
   (1080, [1048]); (1081, [1049]); (1082, [1050]); (1083, [1051]); (1084, [1052]);
   (1085, [1053]); (1086, [1054]); (1087, [1055]); (1088, [1056]); (1089, [1057]);
   (1090, [1058]); (1091, [1059]); (1092, [1060]); (1093, [1061]); (1094, [1062]);
   (1095, [1063]); (1096, [1064]); (1097, [1065]); (1098, [1066]); (1099, [1067]);
   (1100, [1068]); (1101, [1069]); (1102, [1070]); (1103, [1071]); (1104, [1024]);
   (1105, [1025]); (1106, [1026]); (1107, [1027]); (1108, [1028]); (1109, [1029]);
   (1110, [1030]); (1111, [1031]); (1112, [1032]); (1113, [1033]); (1114, [1034]);
   (1115, [1035]); (1116, [1036]); (1117, [1037]); (1118, [1038]); (1119, [1039]);
   (1121, [1120]); (1123, [1122]); (1125, [1124]); (1127, [1126]); (1129, [1128]);
   (1131, [1130]); (1133, [1132]); (1135, [1134]); (1137, [1136]); (1139, [1138]);
   (1141, [1140]); (1143, [1142]); (1145, [1144]); (1147, [1146]); (1149, [1148]);
   (1151, [1150]); (1153, [1152]); (1163, [1162]); (1165, [1164]); (1167, [1166]);
   (1169, [1168]); (1171, [1170]); (1173, [1172]); (1175, [1174]); (1177, [1176]);
   (1179, [1178]); (1181, [1180]); (1183, [1182]); (1185, [1184]); (1187, [1186]);
   (1189, [1188]); (1191, [1190]); (1193, [1192]); (1195, [1194]); (1197, [1196]);
   (1199, [1198]); (1201, [1200]); (1203, [1202]); (1205, [1204]); (1207, [1206]);
   (1209, [1208]); (1211, [1210]); (1213, [1212]); (1215, [1214]); (1218, [1217]);
   (1220, [1219]); (1222, [1221]); (1224, [1223]); (1226, [1225]); (1228, [1227]);
   (1230, [1229]); (1231, [1216]); (1233, [1232]); (1235, [1234]); (1237, [1236]);
   (1239, [1238]); (1241, [1240]); (1243, [1242]); (1245, [1244]); (1247, [1246]);
   (1249, [1248]); (1251, [1250]); (1253, [1252]); (1255, [1254]); (1257, [1256]);
   (1259, [1258]); (1261, [1260]); (1263, [1262]); (1265, [1264]); (1267, [1266]);
   (1269, [1268]); (1271, [1270]); (1273, [1272]); (1275, [1274]); (1277, [1276]);
   (1279, [1278]); (1281, [1280]); (1283, [1282]); (1285, [1284]); (1287, [1286]);
   (1289, [1288]); (1291, [1290]); (1293, [1292]); (1295, [1294]); (1297, [1296]);
   (1299, [1298]); (1301, [1300]); (1303, [1302]); (1305, [1304]); (1307, [1306]);
   (1309, [1308]); (1311, [1310]); (1313, [1312]); (1315, [1314]); (1317, [1316]);
   (1319, [1318]); (1321, [1320]); (1323, [1322]); (1325, [1324]); (1327, [1326]);
   (1377, [1329]); (1378, [1330]); (1379, [1331]); (1380, [1332]); (1381, [1333]);
   (1382, [1334]); (1383, [1335]); (1384, [1336]); (1385, [1337]); (1386, [1338]);
   (1387, [1339]); (1388, [1340]); (1389, [1341]); (1390, [1342]); (1391, [1343]);
   (1392, [1344]); (1393, [1345]); (1394, [1346]); (1395, [1347]); (1396, [1348]);
   (1397, [1349]); (1398, [1350]); (1399, [1351]); (1400, [1352]); (1401, [1353]);
   (1402, [1354]); (1403, [1355]); (1404, [1356]); (1405, [1357]); (1406, [1358]);
   (1407, [1359]); (1408, [1360]); (1409, [1361]); (1410, [1362]); (1411, [1363]);
   (1412, [1364]); (1413, [1365]); (1414, [1366]); (1415, [1333; 1362]); (4304, [7312]);
   (4305, [7313]); (4306, [7314]); (4307, [7315]); (4308, [7316]); (4309, [7317]);
   (4310, [7318]); (4311, [7319]); (4312, [7320]); (4313, [7321]); (4314, [7322]);
   (4315, [7323]); (4316, [7324]); (4317, [7325]); (4318, [7326]); (4319, [7327]);
   (4320, [7328]); (4321, [7329]); (4322, [7330]); (4323, [7331]); (4324, [7332]);
   (4325, [7333]); (4326, [7334]); (4327, [7335]); (4328, [7336]); (4329, [7337]);
   (4330, [7338]); (4331, [7339]); (4332, [7340]); (4333, [7341]); (4334, [7342]);
   (4335, [7343]); (4336, [7344]); (4337, [7345]); (4338, [7346]); (4339, [7347]);
   (4340, [7348]); (4341, [7349]); (4342, [7350]); (4343, [7351]); (4344, [7352]);
   (4345, [7353]); (4346, [7354]); (4349, [7357]); (4350, [7358]); (4351, [7359]);
   (5112, [5104]); (5113, [5105]); (5114, [5106]); (5115, [5107]); (5116, [5108]);
   (5117, [5109]); (7296, [1042]); (7297, [1044]); (7298, [1054]); (7299, [1057]);
   (7300, [1058]); (7301, [1058]); (7302, [1066]); (7303, [1122]); (7304, [42570]);
   (7545, [42877]); (7549, [11363]); (7566, [42950]); (7681, [7680]); (7683, [7682]);
   (7685, [7684]); (7687, [7686]); (7689, [7688]); (7691, [7690]); (7693, [7692]);
   (7695, [7694]); (7697, [7696]); (7699, [7698]); (7701, [7700]); (7703, [7702]);
   (7705, [7704]); (7707, [7706]); (7709, [7708]); (7711, [7710]); (7713, [7712]);
   (7715, [7714]); (7717, [7716]); (7719, [7718]); (7721, [7720]); (7723, [7722]);
   (7725, [7724]); (7727, [7726]); (7729, [7728]); (7731, [7730]); (7733, [7732]);
   (7735, [7734]); (7737, [7736]); (7739, [7738]); (7741, [7740]); (7743, [7742]);
   (7745, [7744]); (7747, [7746]); (7749, [7748]); (7751, [7750]); (7753, [7752]);
   (7755, [7754]); (7757, [7756]); (7759, [7758]); (7761, [7760]); (7763, [7762]);
   (7765, [7764]); (7767, [7766]); (7769, [7768]); (7771, [7770]); (7773, [7772]);
   (7775, [7774]); (7777, [7776]); (7779, [7778]); (7781, [7780]); (7783, [7782]);
   (7785, [7784]); (7787, [7786]); (7789, [7788]); (7791, [7790]); (7793, [7792]);
   (7795, [7794]); (7797, [7796]); (7799, [7798]); (7801, [7800]); (7803, [7802]);
   (7805, [7804]); (7807, [7806]); (7809, [7808]); (7811, [7810]); (7813, [7812]);
   (7815, [7814]); (7817, [7816]); (7819, [7818]); (7821, [7820]); (7823, [7822]);
   (7825, [7824]); (7827, [7826]); (7829, [7828]); (7830, [72; 817]); (7831, [84; 776]);
   (7832, [87; 778]); (7833, [89; 778]); (7834, [65; 702]); (7835, [7776]); (7841, [7840]);
   (7843, [7842]); (7845, [7844]); (7847, [7846]); (7849, [7848]); (7851, [7850]);
   (7853, [7852]); (7855, [7854]); (7857, [7856]); (7859, [7858]); (7861, [7860]);
   (7863, [7862]); (7865, [7864]); (7867, [7866]); (7869, [7868]); (7871, [7870]);
   (7873, [7872]); (7875, [7874]); (7877, [7876]); (7879, [7878]); (7881, [7880]);
   (7883, [7882]); (7885, [7884]); (7887, [7886]); (7889, [7888]); (7891, [7890]);
   (7893, [7892]); (7895, [7894]); (7897, [7896]); (7899, [7898]); (7901, [7900]);
   (7903, [7902]); (7905, [7904]); (7907, [7906]); (7909, [7908]); (7911, [7910]);
   (7913, [7912]); (7915, [7914]); (7917, [7916]); (7919, [7918]); (7921, [7920]);
   (7923, [7922]); (7925, [7924]); (7927, [7926]); (7929, [7928]); (7931, [7930]);
   (7933, [7932]); (7935, [7934]); (7936, [7944]); (7937, [7945]); (7938, [7946]);
   (7939, [7947]); (7940, [7948]); (7941, [7949]); (7942, [7950]); (7943, [7951]);
   (7952, [7960]); (7953, [7961]); (7954, [7962]); (7955, [7963]); (7956, [7964]);
   (7957, [7965]); (7968, [7976]); (7969, [7977]); (7970, [7978]); (7971, [7979]);
   (7972, [7980]); (7973, [7981]); (7974, [7982]); (7975, [7983]); (7984, [7992]);
   (7985, [7993]); (7986, [7994]); (7987, [7995]); (7988, [7996]); (7989, [7997]);
   (7990, [7998]); (7991, [7999]); (8000, [8008]); (8001, [8009]); (8002, [8010]);
   (8003, [8011]); (8004, [8012]); (8005, [8013]); (8016, [933; 787]); (8017, [8025]);
   (8018, [933; 787; 768]); (8019, [8027]); (8020, [933; 787; 769]); (8021, [8029]);
   (8022, [933; 787; 834]); (8023, [8031]); (8032, [8040]); (8033, [8041]); (8034, [8042]);
   (8035, [8043]); (8036, [8044]); (8037, [8045]); (8038, [8046]); (8039, [8047]);
   (8048, [8122]); (8049, [8123]); (8050, [8136]); (8051, [8137]); (8052, [8138]);
   (8053, [8139]); (8054, [8154]); (8055, [8155]); (8056, [8184]); (8057, [8185]);
   (8058, [8170]); (8059, [8171]); (8060, [8186]); (8061, [8187]); (8064, [7944; 921]);
   (8065, [7945; 921]); (8066, [7946; 921]); (8067, [7947; 921]); (8068, [7948; 921]);
   (8069, [7949; 921]); (8070, [7950; 921]); (8071, [7951; 921]); (8072, [7944; 921]);
   (8073, [7945; 921]); (8074, [7946; 921]); (8075, [7947; 921]); (8076, [7948; 921]);
   (8077, [7949; 921]); (8078, [7950; 921]); (8079, [7951; 921]); (8080, [7976; 921]);
   (8081, [7977; 921]); (8082, [7978; 921]); (8083, [7979; 921]); (8084, [7980; 921]);
   (8085, [7981; 921]); (8086, [7982; 921]); (8087, [7983; 921]); (8088, [7976; 921]);
   (8089, [7977; 921]); (8090, [7978; 921]); (8091, [7979; 921]); (8092, [7980; 921]);
   (8093, [7981; 921]); (8094, [7982; 921]); (8095, [7983; 921]); (8096, [8040; 921]);
   (8097, [8041; 921]); (8098, [8042; 921]); (8099, [8043; 921]); (8100, [8044; 921]);
   (8101, [8045; 921]); (8102, [8046; 921]); (8103, [8047; 921]); (8104, [8040; 921]);
   (8105, [8041; 921]); (8106, [8042; 921]); (8107, [8043; 921]); (8108, [8044; 921]);
   (8109, [8045; 921]); (8110, [8046; 921]); (8111, [8047; 921]); (8112, [8120]);
   (8113, [8121]); (8114, [8122; 921]); (8115, [913; 921]); (8116, [902; 921]);
   (8118, [913; 834]); (8119, [913; 834; 921]); (8124, [913; 921]); (8126, [921]);
   (8130, [8138; 921]); (8131, [919; 921]); (8132, [905; 921]); (8134, [919; 834]);
   (8135, [919; 834; 921]); (8140, [919; 921]); (8144, [8152]); (8145, [8153]);
   (8146, [921; 776; 768]); (8147, [921; 776; 769]); (8150, [921; 834]);
   (8151, [921; 776; 834]); (8160, [8168]); (8161, [8169]); (8162, [933; 776; 768]);
   (8163, [933; 776; 769]); (8164, [929; 787]); (8165, [8172]); (8166, [933; 834]);
   (8167, [933; 776; 834]); (8178, [8186; 921]); (8179, [937; 921]); (8180, [911; 921]);
   (8182, [937; 834]); (8183, [937; 834; 921]); (8188, [937; 921]); (8526, [8498]);
   (8560, [8544]); (8561, [8545]); (8562, [8546]); (8563, [8547]); (8564, [8548]);
   (8565, [8549]); (8566, [8550]); (8567, [8551]); (8568, [8552]); (8569, [8553]);
   (8570, [8554]); (8571, [8555]); (8572, [8556]); (8573, [8557]); (8574, [8558]);
   (8575, [8559]); (8580, [8579]); (9424, [9398]); (9425, [9399]); (9426, [9400]);
   (9427, [9401]); (9428, [9402]); (9429, [9403]); (9430, [9404]); (9431, [9405]);
   (9432, [9406]); (9433, [9407]); (9434, [9408]); (9435, [9409]); (9436, [9410]);
   (9437, [9411]); (9438, [9412]); (9439, [9413]); (9440, [9414]); (9441, [9415]);
   (9442, [9416]); (9443, [9417]); (9444, [9418]); (9445, [9419]); (9446, [9420]);
   (9447, [9421]); (9448, [9422]); (9449, [9423]); (11312, [11264]); (11313, [11265]);
   (11314, [11266]); (11315, [11267]); (11316, [11268]); (11317, [11269]); (11318, [11270]);
   (11319, [11271]); (11320, [11272]); (11321, [11273]); (11322, [11274]); (11323, [11275]);
   (11324, [11276]); (11325, [11277]); (11326, [11278]); (11327, [11279]); (11328, [11280]);
   (11329, [11281]); (11330, [11282]); (11331, [11283]); (11332, [11284]); (11333, [11285]);
   (11334, [11286]); (11335, [11287]); (11336, [11288]); (11337, [11289]); (11338, [11290]);
   (11339, [11291]); (11340, [11292]); (11341, [11293]); (11342, [11294]); (11343, [11295]);
   (11344, [11296]); (11345, [11297]); (11346, [11298]); (11347, [11299]); (11348, [11300]);
   (11349, [11301]); (11350, [11302]); (11351, [11303]); (11352, [11304]); (11353, [11305]);
   (11354, [11306]); (11355, [11307]); (11356, [11308]); (11357, [11309]); (11358, [11310]);
   (11359, [11311]); (11361, [11360]); (11365, [570]); (11366, [574]); (11368, [11367]);
   (11370, [11369]); (11372, [11371]); (11379, [11378]); (11382, [11381]); (11393, [11392]);
   (11395, [11394]); (11397, [11396]); (11399, [11398]); (11401, [11400]); (11403, [11402]);
   (11405, [11404]); (11407, [11406]); (11409, [11408]); (11411, [11410]); (11413, [11412]);
   (11415, [11414]); (11417, [11416]); (11419, [11418]); (11421, [11420]); (11423, [11422]);
   (11425, [11424]); (11427, [11426]); (11429, [11428]); (11431, [11430]); (11433, [11432]);
   (11435, [11434]); (11437, [11436]); (11439, [11438]); (11441, [11440]); (11443, [11442]);
   (11445, [11444]); (11447, [11446]); (11449, [11448]); (11451, [11450]); (11453, [11452]);
   (11455, [11454]); (11457, [11456]); (11459, [11458]); (11461, [11460]); (11463, [11462]);
   (11465, [11464]); (11467, [11466]); (11469, [11468]); (11471, [11470]); (11473, [11472]);
   (11475, [11474]); (11477, [11476]); (11479, [11478]); (11481, [11480]); (11483, [11482]);
   (11485, [11484]); (11487, [11486]); (11489, [11488]); (11491, [11490]); (11500, [11499]);
   (11502, [11501]); (11507, [11506]); (11520, [4256]); (11521, [4257]); (11522, [4258]);
   (11523, [4259]); (11524, [4260]); (11525, [4261]); (11526, [4262]); (11527, [4263]);
   (11528, [4264]); (11529, [4265]); (11530, [4266]); (11531, [4267]); (11532, [4268]);
   (11533, [4269]); (11534, [4270]); (11535, [4271]); (11536, [4272]); (11537, [4273]);
   (11538, [4274]); (11539, [4275]); (11540, [4276]); (11541, [4277]); (11542, [4278]);
   (11543, [4279]); (11544, [4280]); (11545, [4281]); (11546, [4282]); (11547, [4283]);
   (11548, [4284]); (11549, [4285]); (11550, [4286]); (11551, [4287]); (11552, [4288]);
   (11553, [4289]); (11554, [4290]); (11555, [4291]); (11556, [4292]); (11557, [4293]);
   (11559, [4295]); (11565, [4301]); (42561, [42560]); (42563, [42562]); (42565, [42564]);
   (42567, [42566]); (42569, [42568]); (42571, [42570]); (42573, [42572]); (42575, [42574]);
   (42577, [42576]); (42579, [42578]); (42581, [42580]); (42583, [42582]); (42585, [42584]);
   (42587, [42586]); (42589, [42588]); (42591, [42590]); (42593, [42592]); (42595, [42594]);
   (42597, [42596]); (42599, [42598]); (42601, [42600]); (42603, [42602]); (42605, [42604]);
   (42625, [42624]); (42627, [42626]); (42629, [42628]); (42631, [42630]); (42633, [42632]);
   (42635, [42634]); (42637, [42636]); (42639, [42638]); (42641, [42640]); (42643, [42642]);
   (42645, [42644]); (42647, [42646]); (42649, [42648]); (42651, [42650]); (42787, [42786]);
   (42789, [42788]); (42791, [42790]); (42793, [42792]); (42795, [42794]); (42797, [42796]);
   (42799, [42798]); (42803, [42802]); (42805, [42804]); (42807, [42806]); (42809, [42808]);
   (42811, [42810]); (42813, [42812]); (42815, [42814]); (42817, [42816]); (42819, [42818]);
   (42821, [42820]); (42823, [42822]); (42825, [42824]); (42827, [42826]); (42829, [42828]);
   (42831, [42830]); (42833, [42832]); (42835, [42834]); (42837, [42836]); (42839, [42838]);
   (42841, [42840]); (42843, [42842]); (42845, [42844]); (42847, [42846]); (42849, [42848]);
   (42851, [42850]); (42853, [42852]); (42855, [42854]); (42857, [42856]); (42859, [42858]);
   (42861, [42860]); (42863, [42862]); (42874, [42873]); (42876, [42875]); (42879, [42878]);
   (42881, [42880]); (42883, [42882]); (42885, [42884]); (42887, [42886]); (42892, [42891]);
   (42897, [42896]); (42899, [42898]); (42900, [42948]); (42903, [42902]); (42905, [42904]);
   (42907, [42906]); (42909, [42908]); (42911, [42910]); (42913, [42912]); (42915, [42914]);
   (42917, [42916]); (42919, [42918]); (42921, [42920]); (42933, [42932]); (42935, [42934]);
   (42937, [42936]); (42939, [42938]); (42941, [42940]); (42943, [42942]); (42945, [42944]);
   (42947, [42946]); (42952, [42951]); (42954, [42953]); (42961, [42960]); (42967, [42966]);
   (42969, [42968]); (42998, [42997]); (43859, [42931]); (43888, [5024]); (43889, [5025]);
   (43890, [5026]); (43891, [5027]); (43892, [5028]); (43893, [5029]); (43894, [5030]);
   (43895, [5031]); (43896, [5032]); (43897, [5033]); (43898, [5034]); (43899, [5035]);
   (43900, [5036]); (43901, [5037]); (43902, [5038]); (43903, [5039]); (43904, [5040]);
   (43905, [5041]); (43906, [5042]); (43907, [5043]); (43908, [5044]); (43909, [5045]);
   (43910, [5046]); (43911, [5047]); (43912, [5048]); (43913, [5049]); (43914, [5050]);
   (43915, [5051]); (43916, [5052]); (43917, [5053]); (43918, [5054]); (43919, [5055]);
   (43920, [5056]); (43921, [5057]); (43922, [5058]); (43923, [5059]); (43924, [5060]);
   (43925, [5061]); (43926, [5062]); (43927, [5063]); (43928, [5064]); (43929, [5065]);
   (43930, [5066]); (43931, [5067]); (43932, [5068]); (43933, [5069]); (43934, [5070]);
   (43935, [5071]); (43936, [5072]); (43937, [5073]); (43938, [5074]); (43939, [5075]);
   (43940, [5076]); (43941, [5077]); (43942, [5078]); (43943, [5079]); (43944, [5080]);
   (43945, [5081]); (43946, [5082]); (43947, [5083]); (43948, [5084]); (43949, [5085]);
   (43950, [5086]); (43951, [5087]); (43952, [5088]); (43953, [5089]); (43954, [5090]);
   (43955, [5091]); (43956, [5092]); (43957, [5093]); (43958, [5094]); (43959, [5095]);
   (43960, [5096]); (43961, [5097]); (43962, [5098]); (43963, [5099]); (43964, [5100]);
   (43965, [5101]); (43966, [5102]); (43967, [5103]); (64256, [70; 70]); (64257, [70; 73]);
   (64258, [70; 76]); (64259, [70; 70; 73]); (64260, [70; 70; 76]); (64261, [83; 84]);
   (64262, [83; 84]); (64275, [1348; 1350]); (64276, [1348; 1333]); (64277, [1348; 1339]);
   (64278, [1358; 1350]); (64279, [1348; 1341]); (65345, [65313]); (65346, [65314]);
   (65347, [65315]); (65348, [65316]); (65349, [65317]); (65350, [65318]); (65351, [65319]);
   (65352, [65320]); (65353, [65321]); (65354, [65322]); (65355, [65323]); (65356, [65324]);
   (65357, [65325]); (65358, [65326]); (65359, [65327]); (65360, [65328]); (65361, [65329]);
   (65362, [65330]); (65363, [65331]); (65364, [65332]); (65365, [65333]); (65366, [65334]);
   (65367, [65335]); (65368, [65336]); (65369, [65337]); (65370, [65338]); (66600, [66560]);
   (66601, [66561]); (66602, [66562]); (66603, [66563]); (66604, [66564]); (66605, [66565]);
   (66606, [66566]); (66607, [66567]); (66608, [66568]); (66609, [66569]); (66610, [66570]);
   (66611, [66571]); (66612, [66572]); (66613, [66573]); (66614, [66574]); (66615, [66575]);
   (66616, [66576]); (66617, [66577]); (66618, [66578]); (66619, [66579]); (66620, [66580]);
   (66621, [66581]); (66622, [66582]); (66623, [66583]); (66624, [66584]); (66625, [66585]);
   (66626, [66586]); (66627, [66587]); (66628, [66588]); (66629, [66589]); (66630, [66590]);
   (66631, [66591]); (66632, [66592]); (66633, [66593]); (66634, [66594]); (66635, [66595]);
   (66636, [66596]); (66637, [66597]); (66638, [66598]); (66639, [66599]); (66776, [66736]);
   (66777, [66737]); (66778, [66738]); (66779, [66739]); (66780, [66740]); (66781, [66741]);
   (66782, [66742]); (66783, [66743]); (66784, [66744]); (66785, [66745]); (66786, [66746]);
   (66787, [66747]); (66788, [66748]); (66789, [66749]); (66790, [66750]); (66791, [66751]);
   (66792, [66752]); (66793, [66753]); (66794, [66754]); (66795, [66755]); (66796, [66756]);
   (66797, [66757]); (66798, [66758]); (66799, [66759]); (66800, [66760]); (66801, [66761]);
   (66802, [66762]); (66803, [66763]); (66804, [66764]); (66805, [66765]); (66806, [66766]);
   (66807, [66767]); (66808, [66768]); (66809, [66769]); (66810, [66770]); (66811, [66771]);
   (66967, [66928]); (66968, [66929]); (66969, [66930]); (66970, [66931]); (66971, [66932]);
   (66972, [66933]); (66973, [66934]); (66974, [66935]); (66975, [66936]); (66976, [66937]);
   (66977, [66938]); (66979, [66940]); (66980, [66941]); (66981, [66942]); (66982, [66943]);
   (66983, [66944]); (66984, [66945]); (66985, [66946]); (66986, [66947]); (66987, [66948]);
   (66988, [66949]); (66989, [66950]); (66990, [66951]); (66991, [66952]); (66992, [66953]);
   (66993, [66954]); (66995, [66956]); (66996, [66957]); (66997, [66958]); (66998, [66959]);
   (66999, [66960]); (67000, [66961]); (67001, [66962]); (67003, [66964]); (67004, [66965]);
   (68800, [68736]); (68801, [68737]); (68802, [68738]); (68803, [68739]); (68804, [68740]);
   (68805, [68741]); (68806, [68742]); (68807, [68743]); (68808, [68744]); (68809, [68745]);
   (68810, [68746]); (68811, [68747]); (68812, [68748]); (68813, [68749]); (68814, [68750]);
   (68815, [68751]); (68816, [68752]); (68817, [68753]); (68818, [68754]); (68819, [68755]);
   (68820, [68756]); (68821, [68757]); (68822, [68758]); (68823, [68759]); (68824, [68760]);
   (68825, [68761]); (68826, [68762]); (68827, [68763]); (68828, [68764]); (68829, [68765]);
   (68830, [68766]); (68831, [68767]); (68832, [68768]); (68833, [68769]); (68834, [68770]);
   (68835, [68771]); (68836, [68772]); (68837, [68773]); (68838, [68774]); (68839, [68775]);
   (68840, [68776]); (68841, [68777]); (68842, [68778]); (68843, [68779]); (68844, [68780]);
   (68845, [68781]); (68846, [68782]); (68847, [68783]); (68848, [68784]); (68849, [68785]);
   (68850, [68786]); (71872, [71840]); (71873, [71841]); (71874, [71842]); (71875, [71843]);
   (71876, [71844]); (71877, [71845]); (71878, [71846]); (71879, [71847]); (71880, [71848]);
   (71881, [71849]); (71882, [71850]); (71883, [71851]); (71884, [71852]); (71885, [71853]);
   (71886, [71854]); (71887, [71855]); (71888, [71856]); (71889, [71857]); (71890, [71858]);
   (71891, [71859]); (71892, [71860]); (71893, [71861]); (71894, [71862]); (71895, [71863]);
   (71896, [71864]); (71897, [71865]); (71898, [71866]); (71899, [71867]); (71900, [71868]);
   (71901, [71869]); (71902, [71870]); (71903, [71871]); (93792, [93760]); (93793, [93761]);
   (93794, [93762]); (93795, [93763]); (93796, [93764]); (93797, [93765]); (93798, [93766]);
   (93799, [93767]); (93800, [93768]); (93801, [93769]); (93802, [93770]); (93803, [93771]);
   (93804, [93772]); (93805, [93773]); (93806, [93774]); (93807, [93775]); (93808, [93776]);
   (93809, [93777]); (93810, [93778]); (93811, [93779]); (93812, [93780]); (93813, [93781]);
   (93814, [93782]); (93815, [93783]); (93816, [93784]); (93817, [93785]); (93818, [93786]);
   (93819, [93787]); (93820, [93788]); (93821, [93789]); (93822, [93790]); (93823, [93791]);
   (125218, [125184]); (125219, [125185]); (125220, [125186]); (125221, [125187]);
   (125222, [125188]); (125223, [125189]); (125224, [125190]); (125225, [125191]);
   (125226, [125192]); (125227, [125193]); (125228, [125194]); (125229, [125195]);
   (125230, [125196]); (125231, [125197]); (125232, [125198]); (125233, [125199]);
   (125234, [125200]); (125235, [125201]); (125236, [125202]); (125237, [125203]);
   (125238, [125204]); (125239, [125205]); (125240, [125206]); (125241, [125207]);
   (125242, [125208]); (125243, [125209]); (125244, [125210]); (125245, [125211]);
   (125246, [125212]); (125247, [125213]); (125248, [125214]); (125249, [125215]);
   (125250, [125216]); (125251, [125217])
  ].

(** The ranges of code points above 127 that are not printable, as
    [str.isprintable] has them and [repr] escapes them. *)
Definition not_printable : list (Z * Z) :=
  [
   (128, 160); (173, 173); (888, 889); (896, 899); (907, 907); (909, 909); (930, 930);
   (1328, 1328); (1367, 1368); (1419, 1420); (1424, 1424); (1480, 1487); (1515, 1518);
   (1525, 1541); (1564, 1564); (1757, 1757); (1806, 1807); (1867, 1868); (1970, 1983);
   (2043, 2044); (2094, 2095); (2111, 2111); (2140, 2141); (2143, 2143); (2155, 2159);
   (2191, 2199); (2274, 2274); (2436, 2436); (2445, 2446); (2449, 2450); (2473, 2473);
   (2481, 2481); (2483, 2485); (2490, 2491); (2501, 2502); (2505, 2506); (2511, 2518);
   (2520, 2523); (2526, 2526); (2532, 2533); (2559, 2560); (2564, 2564); (2571, 2574);
   (2577, 2578); (2601, 2601); (2609, 2609); (2612, 2612); (2615, 2615); (2618, 2619);
   (2621, 2621); (2627, 2630); (2633, 2634); (2638, 2640); (2642, 2648); (2653, 2653);
   (2655, 2661); (2679, 2688); (2692, 2692); (2702, 2702); (2706, 2706); (2729, 2729);
   (2737, 2737); (2740, 2740); (2746, 2747); (2758, 2758); (2762, 2762); (2766, 2767);
   (2769, 2783); (2788, 2789); (2802, 2808); (2816, 2816); (2820, 2820); (2829, 2830);
   (2833, 2834); (2857, 2857); (2865, 2865); (2868, 2868); (2874, 2875); (2885, 2886);
   (2889, 2890); (2894, 2900); (2904, 2907); (2910, 2910); (2916, 2917); (2936, 2945);
   (2948, 2948); (2955, 2957); (2961, 2961); (2966, 2968); (2971, 2971); (2973, 2973);
   (2976, 2978); (2981, 2983); (2987, 2989); (3002, 3005); (3011, 3013); (3017, 3017);
   (3022, 3023); (3025, 3030); (3032, 3045); (3067, 3071); (3085, 3085); (3089, 3089);
   (3113, 3113); (3130, 3131); (3141, 3141); (3145, 3145); (3150, 3156); (3159, 3159);
   (3163, 3164); (3166, 3167); (3172, 3173); (3184, 3190); (3213, 3213); (3217, 3217);
   (3241, 3241); (3252, 3252); (3258, 3259); (3269, 3269); (3273, 3273); (3278, 3284);
   (3287, 3292); (3295, 3295); (3300, 3301); (3312, 3312); (3315, 3327); (3341, 3341);
   (3345, 3345); (3397, 3397); (3401, 3401); (3408, 3411); (3428, 3429); (3456, 3456);
   (3460, 3460); (3479, 3481); (3506, 3506); (3516, 3516); (3518, 3519); (3527, 3529);
   (3531, 3534); (3541, 3541); (3543, 3543); (3552, 3557); (3568, 3569); (3573, 3584);
   (3643, 3646); (3676, 3712); (3715, 3715); (3717, 3717); (3723, 3723); (3748, 3748);
   (3750, 3750); (3774, 3775); (3781, 3781); (3783, 3783); (3790, 3791); (3802, 3803);
   (3808, 3839); (3912, 3912); (3949, 3952); (3992, 3992); (4029, 4029); (4045, 4045);
   (4059, 4095); (4294, 4294); (4296, 4300); (4302, 4303); (4681, 4681); (4686, 4687);
   (4695, 4695); (4697, 4697); (4702, 4703); (4745, 4745); (4750, 4751); (4785, 4785);
   (4790, 4791); (4799, 4799); (4801, 4801); (4806, 4807); (4823, 4823); (4881, 4881);
   (4886, 4887); (4955, 4956); (4989, 4991); (5018, 5023); (5110, 5111); (5118, 5119);
   (5760, 5760); (5789, 5791); (5881, 5887); (5910, 5918); (5943, 5951); (5972, 5983);
   (5997, 5997); (6001, 6001); (6004, 6015); (6110, 6111); (6122, 6127); (6138, 6143);
   (6158, 6158); (6170, 6175); (6265, 6271); (6315, 6319); (6390, 6399); (6431, 6431);
   (6444, 6447); (6460, 6463); (6465, 6467); (6510, 6511); (6517, 6527); (6572, 6575);
   (6602, 6607); (6619, 6621); (6684, 6685); (6751, 6751); (6781, 6782); (6794, 6799);
   (6810, 6815); (6830, 6831); (6863, 6911); (6989, 6991); (7039, 7039); (7156, 7163);
   (7224, 7226); (7242, 7244); (7305, 7311); (7355, 7356); (7368, 7375); (7419, 7423);
   (7958, 7959); (7966, 7967); (8006, 8007); (8014, 8015); (8024, 8024); (8026, 8026);
   (8028, 8028); (8030, 8030); (8062, 8063); (8117, 8117); (8133, 8133); (8148, 8149);
   (8156, 8156); (8176, 8177); (8181, 8181); (8191, 8207); (8232, 8239); (8287, 8303);
   (8306, 8307); (8335, 8335); (8349, 8351); (8385, 8399); (8433, 8447); (8588, 8591);
   (9255, 9279); (9291, 9311); (11124, 11125); (11158, 11158); (11508, 11512); (11558, 11558);
   (11560, 11564); (11566, 11567); (11624, 11630); (11633, 11646); (11671, 11679);
   (11687, 11687); (11695, 11695); (11703, 11703); (11711, 11711); (11719, 11719);
   (11727, 11727); (11735, 11735); (11743, 11743); (11870, 11903); (11930, 11930);
   (12020, 12031); (12246, 12271); (12284, 12288); (12352, 12352); (12439, 12440);
   (12544, 12548); (12592, 12592); (12687, 12687); (12772, 12783); (12831, 12831);
   (42125, 42127); (42183, 42191); (42540, 42559); (42744, 42751); (42955, 42959);
   (42962, 42962); (42964, 42964); (42970, 42993); (43053, 43055); (43066, 43071);
   (43128, 43135); (43206, 43213); (43226, 43231); (43348, 43358); (43389, 43391);
   (43470, 43470); (43482, 43485); (43519, 43519); (43575, 43583); (43598, 43599);
   (43610, 43611); (43715, 43738); (43767, 43776); (43783, 43784); (43791, 43792);
   (43799, 43807); (43815, 43815); (43823, 43823); (43884, 43887); (44014, 44015);
   (44026, 44031); (55204, 55215); (55239, 55242); (55292, 63743); (64110, 64111);
   (64218, 64255); (64263, 64274); (64280, 64284); (64311, 64311); (64317, 64317);
   (64319, 64319); (64322, 64322); (64325, 64325); (64451, 64466); (64912, 64913);
   (64968, 64974); (64976, 65007); (65050, 65055); (65107, 65107); (65127, 65127);
   (65132, 65135); (65141, 65141); (65277, 65280); (65471, 65473); (65480, 65481);
   (65488, 65489); (65496, 65497); (65501, 65503); (65511, 65511); (65519, 65531);
   (65534, 65535); (65548, 65548); (65575, 65575); (65595, 65595); (65598, 65598);
   (65614, 65615); (65630, 65663); (65787, 65791); (65795, 65798); (65844, 65846);
   (65935, 65935); (65949, 65951); (65953, 65999); (66046, 66175); (66205, 66207);
   (66257, 66271); (66300, 66303); (66340, 66348); (66379, 66383); (66427, 66431);
   (66462, 66462); (66500, 66503); (66518, 66559); (66718, 66719); (66730, 66735);
   (66772, 66775); (66812, 66815); (66856, 66863); (66916, 66926); (66939, 66939);
   (66955, 66955); (66963, 66963); (66966, 66966); (66978, 66978); (66994, 66994);
   (67002, 67002); (67005, 67071); (67383, 67391); (67414, 67423); (67432, 67455);
   (67462, 67462); (67505, 67505); (67515, 67583); (67590, 67591); (67593, 67593);
   (67638, 67638); (67641, 67643); (67645, 67646); (67670, 67670); (67743, 67750);
   (67760, 67807); (67827, 67827); (67830, 67834); (67868, 67870); (67898, 67902);
   (67904, 67967); (68024, 68027); (68048, 68049); (68100, 68100); (68103, 68107);
   (68116, 68116); (68120, 68120); (68150, 68151); (68155, 68158); (68169, 68175);
   (68185, 68191); (68256, 68287); (68327, 68330); (68343, 68351); (68406, 68408);
   (68438, 68439); (68467, 68471); (68498, 68504); (68509, 68520); (68528, 68607);
   (68681, 68735); (68787, 68799); (68851, 68857); (68904, 68911); (68922, 69215);
   (69247, 69247); (69290, 69290); (69294, 69295); (69298, 69375); (69416, 69423);
   (69466, 69487); (69514, 69551); (69580, 69599); (69623, 69631); (69710, 69713);
   (69750, 69758); (69821, 69821); (69827, 69839); (69865, 69871); (69882, 69887);
   (69941, 69941); (69960, 69967); (70007, 70015); (70112, 70112); (70133, 70143);
   (70162, 70162); (70207, 70271); (70279, 70279); (70281, 70281); (70286, 70286);
   (70302, 70302); (70314, 70319); (70379, 70383); (70394, 70399); (70404, 70404);
   (70413, 70414); (70417, 70418); (70441, 70441); (70449, 70449); (70452, 70452);
   (70458, 70458); (70469, 70470); (70473, 70474); (70478, 70479); (70481, 70486);
   (70488, 70492); (70500, 70501); (70509, 70511); (70517, 70655); (70748, 70748);
   (70754, 70783); (70856, 70863); (70874, 71039); (71094, 71095); (71134, 71167);
   (71237, 71247); (71258, 71263); (71277, 71295); (71354, 71359); (71370, 71423);
   (71451, 71452); (71468, 71471); (71495, 71679); (71740, 71839); (71923, 71934);
   (71943, 71944); (71946, 71947); (71956, 71956); (71959, 71959); (71990, 71990);
   (71993, 71994); (72007, 72015); (72026, 72095); (72104, 72105); (72152, 72153);
   (72165, 72191); (72264, 72271); (72355, 72367); (72441, 72703); (72713, 72713);
   (72759, 72759); (72774, 72783); (72813, 72815); (72848, 72849); (72872, 72872);
   (72887, 72959); (72967, 72967); (72970, 72970); (73015, 73017); (73019, 73019);
   (73022, 73022); (73032, 73039); (73050, 73055); (73062, 73062); (73065, 73065);
   (73103, 73103); (73106, 73106); (73113, 73119); (73130, 73439); (73465, 73647);
   (73649, 73663); (73714, 73726); (74650, 74751); (74863, 74863); (74869, 74879);
   (75076, 77711); (77811, 77823); (78895, 82943); (83527, 92159); (92729, 92735);
   (92767, 92767); (92778, 92781); (92863, 92863); (92874, 92879); (92910, 92911);
   (92918, 92927); (92998, 93007); (93018, 93018); (93026, 93026); (93048, 93052);
   (93072, 93759); (93851, 93951); (94027, 94030); (94088, 94094); (94112, 94175);
   (94181, 94191); (94194, 94207); (100344, 100351); (101590, 101631); (101641, 110575);
   (110580, 110580); (110588, 110588); (110591, 110591); (110883, 110927); (110931, 110947);
   (110952, 110959); (111356, 113663); (113771, 113775); (113789, 113791); (113801, 113807);
   (113818, 113819); (113824, 118527); (118574, 118575); (118599, 118607); (118724, 118783);
   (119030, 119039); (119079, 119080); (119155, 119162); (119275, 119295); (119366, 119519);
   (119540, 119551); (119639, 119647); (119673, 119807); (119893, 119893); (119965, 119965);
   (119968, 119969); (119971, 119972); (119975, 119976); (119981, 119981); (119994, 119994);
   (119996, 119996); (120004, 120004); (120070, 120070); (120075, 120076); (120085, 120085);
   (120093, 120093); (120122, 120122); (120127, 120127); (120133, 120133); (120135, 120137);
   (120145, 120145); (120486, 120487); (120780, 120781); (121484, 121498); (121504, 121504);
   (121520, 122623); (122655, 122879); (122887, 122887); (122905, 122906); (122914, 122914);
   (122917, 122917); (122923, 123135); (123181, 123183); (123198, 123199); (123210, 123213);
   (123216, 123535); (123567, 123583); (123642, 123646); (123648, 124895); (124903, 124903);
   (124908, 124908); (124911, 124911); (124927, 124927); (125125, 125126); (125143, 125183);
   (125260, 125263); (125274, 125277); (125280, 126064); (126133, 126208); (126270, 126463);
   (126468, 126468); (126496, 126496); (126499, 126499); (126501, 126502); (126504, 126504);
   (126515, 126515); (126520, 126520); (126522, 126522); (126524, 126529); (126531, 126534);
   (126536, 126536); (126538, 126538); (126540, 126540); (126544, 126544); (126547, 126547);
   (126549, 126550); (126552, 126552); (126554, 126554); (126556, 126556); (126558, 126558);
   (126560, 126560); (126563, 126563); (126565, 126566); (126571, 126571); (126579, 126579);
   (126584, 126584); (126589, 126589); (126591, 126591); (126602, 126602); (126620, 126624);
   (126628, 126628); (126634, 126634); (126652, 126703); (126706, 126975); (127020, 127023);
   (127124, 127135); (127151, 127152); (127168, 127168); (127184, 127184); (127222, 127231);
   (127406, 127461); (127491, 127503); (127548, 127551); (127561, 127567); (127570, 127583);
   (127590, 127743); (128728, 128732); (128749, 128751); (128765, 128767); (128884, 128895);
   (128985, 128991); (129004, 129007); (129009, 129023); (129036, 129039); (129096, 129103);
   (129114, 129119); (129160, 129167); (129198, 129199); (129202, 129279); (129620, 129631);
   (129646, 129647); (129653, 129655); (129661, 129663); (129671, 129679); (129709, 129711);
   (129723, 129727); (129734, 129743); (129754, 129759); (129768, 129775); (129783, 129791);
   (129939, 129939); (129995, 130031); (130042, 131071); (173792, 173823); (177977, 177983);
   (178206, 178207); (183970, 183983); (191457, 194559); (195102, 196607); (201547, 917759);
   (918000, 1114111)
  ].

Definition is_printable (cp : Z) : bool :=
  negb (existsb (fun r => (fst r <=? cp) && (cp <=? snd r)) not_printable).

End Unicode.

(** ** Python strings *)

Module PyStr.

(** ["sep".join(parts)] *)
Fixpoint join (sep : string) (parts : list string) : string :=
  match parts with
  | [] => ""
  | [p] => p
  | p :: rest => p ++ sep ++ join sep rest
  end.

Fixpoint all_chars (p : ascii -> bool) (s : string) : bool :=
  match s with
  | EmptyString => true
  | String c rest => p c && all_chars p rest
  end.

Fixpoint contains_char (c : ascii) (s : string) : bool :=
  match s with
  | EmptyString => false
  | String d rest => Ascii.eqb c d || contains_char c rest
  end.

Fixpoint map_chars (f : ascii -> ascii) (s : string) : string :=
  match s with
  | EmptyString => EmptyString
  | String c rest => String (f c) (map_chars f rest)
  end.

Definition is_ascii (c : ascii) : bool := (nat_of_ascii c <? 128)%nat.

Definition is_ascii_lower (c : ascii) : bool :=
  ((97 <=? nat_of_ascii c) && (nat_of_ascii c <=? 122))%nat.

Definition is_digit (c : ascii) : bool :=
  ((48 <=? nat_of_ascii c) && (nat_of_ascii c <=? 57))%nat.

Fixpoint repeat_char (c : ascii) (n : nat) : string :=
  match n with
  | O => EmptyString
  | S k => String c (repeat_char c k)
  end.

Definition is_continuation (c : ascii) : bool :=
  ((128 <=? nat_of_ascii c) && (nat_of_ascii c <? 192))%nat.

Definition starts_with_continuation (s : string) : bool :=
  match s with
  | String d _ => is_continuation d
  | EmptyString => false
  end.

(** The code points of a string, each with its UTF-8 continuation bytes. *)
Fixpoint code_points (s : string) : list string :=
  match s with
  | EmptyString => []
  | String c rest =>
      match code_points rest with
      | g :: gs =>
          if starts_with_continuation rest then String c g :: gs
          else String c EmptyString :: g :: gs
      | [] => [String c EmptyString]
      end
  end.

(** The uppercase of an ASCII character: a-z become A-Z. *)
Definition upper_char (c : ascii) : ascii :=
  if is_ascii_lower c then ascii_of_nat (nat_of_ascii c - 32) else c.

(** The uppercase of one code point, given as its bytes: an ASCII
    character by [upper_char], a code point above 127 by the Unicode table
    (itself when the table does not list it).  Bytes that are no encoding
    of a code point, which no [str] holds, are taken one by one. *)
Definition upper_point (g : string) : string :=
  match g with
  | String c EmptyString => String (upper_char c) EmptyString
  | _ =>
      if all_chars (fun c => negb (is_ascii c)) g then
        match Unicode.decode g with
        | Some cp =>
            match Unicode.lookup cp Unicode.to_upper with
            | Some ups => String.concat EmptyString (map Unicode.encode ups)
            | None => g
            end
        | None => g
        end
      else map_chars upper_char g
  end.

(** [s.upper()]: every code point replaced by its uppercase. *)
Definition upper (s : string) : string :=
  String.concat EmptyString (map upper_point (code_points s)).


End PyStr.

(** ** Python numbers *)

Module PyNum.

(** [str(n)] for a non-negative integer. *)
Definition dec (n : Z) : string := NilZero.string_of_uint (N.to_uint (Z.to_N n)).

(** [str(n)] for an [int]. *)
Definition int_str (n : Z) : string := NilZero.string_of_int (Z.to_int n).

Definition digit_char (d : Z) : ascii := ascii_of_nat (48 + Z.to_nat d).

(** A Python [float]: the sign, mantissa and exponent of a binary64 datum,
    [S754_finite s m e] standing for (-1)^s * m * 2^e. *)
Definition float := spec_float.

Definition is_finite (x : float) : bool :=
  match x with
  | S754_zero _ | S754_finite _ _ _ => true
  | _ => false
  end.

Definition sign_str (s : bool) : string := if s then "-" else "".

(** The integer nearest to [n / d], ties to the even one. *)
Definition div_half_even (n d : Z) : Z :=
  let q := n / d in
  let r := n mod d in
  if 2 * r <? d then q
  else if d <? 2 * r then q + 1
  else if Z.even q then q else q + 1.

(** m * 2^e * 10^4, rounded to an integer (ties to even): the digits that
    the [.4f] presentation shows. *)
Definition scaled4 (m : positive) (e : Z) : Z :=
  if 0 <=? e then Z.pos m * 2 ^ e * 10000
  else div_half_even (Z.pos m * 10000) (2 ^ (- e)).

Definition frac4 (q : Z) : string :=
  String (digit_char (q / 1000 mod 10))
 (String (digit_char (q / 100 mod 10))
 (String (digit_char (q / 10 mod 10))
 (String (digit_char (q mod 10)) EmptyString))).

(** [f"{x:.4f}"] *)
Definition format_4f (x : float) : string :=
  match x with
  | S754_nan => "nan"
  | S754_infinity s => sign_str s ++ "inf"
  | S754_zero s => sign_str s ++ "0.0000"
  | S754_finite s m e =>
      let q := scaled4 m e in
      sign_str s ++ dec (q / 10000) ++ "." ++ frac4 q
  end.

(** *** [repr] of a float: the shortest digits that read back to it *)

(** The least [k], searched upwards from [k0], with [num / den < 10^k]. *)
Fixpoint decimal_exponent (fuel : nat) (k0 num den : Z) : Z :=
  match fuel with
  | O => k0
  | S f =>
      if (if 0 <=? k0 then num <? den * 10 ^ k0 else num * 10 ^ (- k0) <? den)
      then k0
      else decimal_exponent f (k0 + 1) num den
  end.

(** A lower estimate of the decimal exponent from the binary one, with
    30103 / 100000 for the logarithm of 2. *)
Definition decimal_estimate (num den : Z) : Z :=
  (Z.log2 num - Z.log2 den - 1) * 30103 / 100000 - 1.

Fixpoint strip_zeros (fuel : nat) (c : Z) : Z :=
  match fuel with
  | O => c
  | S f => if (c mod 10 =? 0) && negb (c =? 0) then strip_zeros f (c / 10) else c
  end.

(** The candidates with [n] significant digits around [num / den]: the
    truncation [lo] and its successor, each kept when it lies in the
    rounding interval [num - down, num + up] (over [den]; the end points
    count when [closed]).  Of two that fit, the nearer one, and the even one
    on a tie. *)
Definition digits_at (closed : bool) (num den up down k : Z) (n : Z) : option Z :=
  let P := if n <=? k then 10 ^ (k - n) else 1 in
  let Q := if n <=? k then 1 else 10 ^ (n - k) in
  let x := num * Q in
  let u := den * P in
  let lo := x / u in
  let hi := lo + 1 in
  let fits c :=
    if closed
    then ((num - down) * Q <=? c * u) && (c * u <=? (num + up) * Q)
    else ((num - down) * Q <? c * u) && (c * u <? (num + up) * Q) in
  match fits lo, fits hi with
  | true, true =>
      let dlo := x - lo * u in
      let dhi := hi * u - x in
      if dlo <? dhi then Some lo
      else if dhi <? dlo then Some hi
      else if Z.even lo then Some lo else Some hi
  | true, false => Some lo
  | false, true => Some hi
  | false, false => None
  end.

Fixpoint shortest_from (fuel : nat) (closed : bool) (num den up down k : Z)
    (n : Z) : Z * Z :=
  match fuel with
  | O => (num, n)
  | S f =>
      match digits_at closed num den up down k n with
      | Some c => (c, n)
      | None => shortest_from f closed num den up down k (n + 1)
      end
  end.

(** The digits [c] (an integer without trailing zeros) and the position
    [decpt] of the decimal point: the float is read back from
    0.c * 10^decpt. *)
Definition shortest_digits (m : positive) (e : Z) : Z * Z :=
  let sh := Z.max 0 (2 - e) in
  let den := 2 ^ sh in
  let num := Z.pos m * 2 ^ (e + sh) in
  let up := 2 ^ (e - 1 + sh) in
  let down :=
    if (Z.pos m =? 2 ^ 52) && (-1074 <? e) then 2 ^ (e - 2 + sh) else up in
  let k := decimal_exponent 8 (decimal_estimate num den) num den in
  let '(c, n) := shortest_from 17 (Z.even (Z.pos m)) num den up down k 1 in
  let decpt := if c <? 10 ^ n then k else k + 1 in
  (strip_zeros 20 c, decpt).

Definition exponent_str (x : Z) : string :=
  (if x <? 0 then "-" else "+") ++
  (if Z.abs x <? 10 then "0" else "") ++ dec (Z.abs x).

(** The layout of [repr]: scientific when [decpt <= -4] or [decpt > 16],
    positional otherwise, with [.0] added to a whole number. *)
Definition layout (ds : string) (decpt : Z) : string :=
  let nd := Z.of_nat (String.length ds) in
  if (decpt <=? -4) || (16 <? decpt) then
    match ds with
    | EmptyString => ds
    | String d EmptyString => String d ("e" ++ exponent_str (decpt - 1))
    | String d rest => String d ("." ++ rest ++ "e" ++ exponent_str (decpt - 1))
    end
  else if decpt <=? 0 then
    "0." ++ PyStr.repeat_char "0" (Z.to_nat (- decpt)) ++ ds
  else if nd <=? decpt then
    ds ++ PyStr.repeat_char "0" (Z.to_nat (decpt - nd)) ++ ".0"
  else
    substring 0 (Z.to_nat decpt) ds ++ "." ++
    substring (Z.to_nat decpt) (Z.to_nat (nd - decpt)) ds.

(** [str(x)], which [f"{x}"] shows for a float. *)
Definition float_str (x : float) : string :=
  match x with
  | S754_nan => "nan"
  | S754_infinity s => sign_str s ++ "inf"
  | S754_zero s => sign_str s ++ "0.0"
  | S754_finite s m e =>
      let '(c, decpt) := shortest_digits m e in
      sign_str s ++ layout (dec c) decpt
  end.

(** [int(s)] for a string of decimal digits. *)
Definition read_dec (s : string) : option Z :=
  option_map (fun u => Z.of_N (N.of_uint u)) (NilZero.uint_of_string s).

End PyNum.

(** ** Python values and the operations the tools apply to them *)

Module Py.

Import PyStr PyNum.

(** What [response.json()] returns: [JNull] is Python's [None], a [JDict]
    lists the entries of a [dict] in insertion order, its keys distinct. *)
#[warnings="-register-all"] Inductive json : Type :=
  | JNull
  | JBool (b : bool)
  | JInt (n : Z)
  | JFloat (x : float)
  | JStr (s : string)
  | JList (items : list json)
  | JDict (entries : list (string * json)).

(** The exceptions that the tools' own operations raise. *)
Inductive exn : Type :=
  | AttributeError
  | TypeError.

Inductive result (A : Type) : Type :=
  | Ok (a : A)
  | Raise (e : exn).

Arguments Ok {A} a.
Arguments Raise {A} e.

Definition bind_result {A B : Type} (r : result A) (f : A -> result B) : result B :=
  match r with
  | Ok a => f a
  | Raise e => Raise e
  end.

(** A [for] loop or comprehension that builds a list and stops at the
    first exception. *)
Fixpoint map_result {A B : Type} (f : A -> result B) (l : list A) : result (list B) :=
  match l with
  | [] => Ok []
  | a :: rest =>
      bind_result (f a) (fun b =>
      bind_result (map_result f rest) (fun bs => Ok (b :: bs)))
  end.

(** [bool(v)], as [not v] and [if v] test it. *)
Definition truthy (v : json) : bool :=
  match v with
  | JNull => false
  | JBool b => b
  | JInt n => negb (n =? 0)
  | JFloat (S754_zero _) => false
  | JFloat _ => true
  | JStr EmptyString => false
  | JStr _ => true
  | JList [] => false
  | JList _ => true
  | JDict [] => false
  | JDict _ => true
  end.

Fixpoint dict_get (key : string) (entries : list (string * json)) : option json :=
  match entries with
  | [] => None
  | (k, v) :: rest => if String.eqb k key then Some v else dict_get key rest
  end.

(** [o.get(key, default)]: only a [dict] has the method. *)
Definition py_get (o : json) (key : string) (default : json) : result json :=
  match o with
  | JDict entries =>
      match dict_get key entries with
      | Some v => Ok v
      | None => Ok default
      end
  | _ => Raise AttributeError
  end.

(** What [for x in v] runs over: the items of a list, the keys of a dict,
    the characters of a string; the other values are not iterable. *)
Definition py_iter (v : json) : result (list json) :=
  match v with
  | JList items => Ok items
  | JDict entries => Ok (map (fun kv => JStr (fst kv)) entries)
  | JStr s => Ok (map JStr (code_points s))
  | _ => Raise TypeError
  end.

Definition hex_digit (n : nat) : ascii :=
  if (n <? 10)%nat then ascii_of_nat (48 + n) else ascii_of_nat (87 + n).

Definition quote1 : ascii := ascii_of_nat 39.
Definition quote2 : ascii := ascii_of_nat 34.
Definition backslash : ascii := ascii_of_nat 92.

Definition escape_char (q c : ascii) : string :=
  let n := nat_of_ascii c in
  if Ascii.eqb c q || Ascii.eqb c backslash then String backslash (String c EmptyString)
  else if (n =? 9)%nat then String backslash "t"
  else if (n =? 10)%nat then String backslash "n"
  else if (n =? 13)%nat then String backslash "r"
  else if (n <? 32)%nat || (n =? 127)%nat then
    String backslash (String "x" (String (hex_digit (n / 16)) (String (hex_digit (n mod 16)) EmptyString)))
  else String c EmptyString.

(** [digits] hexadecimal digits of [n], the lowest last. *)
Fixpoint hex (digits : nat) (n : Z) : string :=
  match digits with
  | O => EmptyString
  | S k => hex k (n / 16) ++ String (hex_digit (Z.to_nat (n mod 16))) EmptyString
  end.

(** The escape of a code point that is not printable. *)
Definition hex_escape (cp : Z) : string :=
  if cp <? 256 then String backslash ("x" ++ hex 2 cp)
  else if cp <? 65536 then String backslash ("u" ++ hex 4 cp)
  else String backslash ("U" ++ hex 8 cp).

(** One code point inside [repr]: an ASCII character by [escape_char], a
    code point above 127 as it is when printable and escaped otherwise. *)
Definition escape_point (q : ascii) (g : string) : string :=
  match g with
  | String c EmptyString => escape_char q c
  | _ =>
      match Unicode.decode g with
      | Some cp => if Unicode.is_printable cp then g else hex_escape cp
      | None => g
      end
  end.

(** [repr(s)] of a string, as a list or dict shows its strings: single
    quotes unless the string holds one and no double quote; the quote, the
    backslash and the code points that are not printable escaped. *)
Definition repr_str (s : string) : string :=
  let q := if contains_char quote1 s && negb (contains_char quote2 s)
           then quote2 else quote1 in
  String q (String.concat EmptyString (map (escape_point q) (code_points s)) ++
            String q EmptyString).

Fixpoint py_repr (v : json) : string :=
  match v with
  | JNull => "None"
  | JBool true => "True"
  | JBool false => "False"
  | JInt n => int_str n
  | JFloat x => float_str x
  | JStr s => repr_str s
  | JList items => "[" ++ join ", " (map py_repr items) ++ "]"
  | JDict entries =>
      "{" ++ join ", " (map (fun kv => repr_str (fst kv) ++ ": " ++ py_repr (snd kv)) entries) ++ "}"
  end.

(** [str(v)], which an f-string field [{v}] shows. *)
Definition py_str (v : json) : string :=
  match v with
  | JStr s => s
  | _ => py_repr v
  end.

End Py.

(** ** The server: [weather_server.py] *)

Module Weather.

Import PyStr PyNum Py.

(** The line feed of the [\n] escapes. *)
Definition nl : string := String (ascii_of_nat 10) EmptyString.

Definition NWS_API_BASE : string := "https://api.weather.gov".
Definition USER_AGENT : string := "weather-app/1.0".

(** The request headers of [make_nws_request]. *)
Definition headers : list (string * string) :=
  [("User-Agent", USER_AGENT); ("Accept", "application/geo+json")].

(** The client and the service behind it, as the helper sees them: given
    the URLs passed to the client so far, the headers and the URL of a call
    of [client.get], either the parsed body, or [None] when anything in the
    [try] block raises (the client refusing the URL before it sends
    anything, a transport error, a status that is not a success, a body
    that is not JSON). *)
Definition upstream : Type := list string -> list (string * string) -> string -> option json.

(** A computation of the tools: it may raise, and it extends the list of
    the URLs passed to the client. *)
Definition M (A : Type) : Type := list string -> result A * list string.

Definition ret {A : Type} (a : A) : M A := fun log => (Ok a, log).

Definition bind {A B : Type} (m : M A) (f : A -> M B) : M B :=
  fun log =>
    match m log with
    | (Ok a, log') => f a log'
    | (Raise e, log') => (Raise e, log')
    end.

Definition lift {A : Type} (r : result A) : M A := fun log => (r, log).

Notation "x <- m ;; k" := (bind m (fun x => k))
  (at level 61, m at next level, right associativity).

(** The result of a run that starts with no call made, and the URLs it
    passes to the client. *)
Definition run {A : Type} (m : M A) : result A * list string := m [].

(** [format_alert]: the block of one alert feature. *)
Definition format_alert (feature : json) : result string :=
  bind_result (py_get feature "properties" (JDict [])) (fun props =>
  bind_result (py_get props "event" (JStr "Unknown")) (fun event =>
  bind_result (py_get props "areaDesc" (JStr "Unknown")) (fun areaDesc =>
  bind_result (py_get props "severity" (JStr "Unknown")) (fun severity =>
  bind_result (py_get props "status" (JStr "Unknown")) (fun status =>
  bind_result (py_get props "headline" (JStr "No headline")) (fun headline =>
  Ok (join nl
    [ "Event: " ++ py_str event;
      "Area: " ++ py_str areaDesc;
      "Severity: " ++ py_str severity;
      "Status: " ++ py_str status;
      "Headline: " ++ py_str headline;
      "---" ]))))))).

(** The body of the loop of [get_forecast]: the text of one period. *)
Definition period_text (period : json) : result string :=
  bind_result (py_get period "name" (JStr "Unknown")) (fun name =>
  bind_result (py_get period "temperature" (JStr "Unknown")) (fun temperature =>
  bind_result (py_get period "temperatureUnit" (JStr "F")) (fun temperatureUnit =>
  bind_result (py_get period "windSpeed" (JStr "Unknown")) (fun windSpeed =>
  bind_result (py_get period "windDirection" (JStr EmptyString)) (fun windDirection =>
  bind_result (py_get period "shortForecast" (JStr "No forecast available")) (fun shortForecast =>
  Ok (join nl
    [ py_str name ++ ":";
      "Temperature: " ++ py_str temperature ++ "°" ++ py_str temperatureUnit;
      "Wind: " ++ py_str windSpeed ++ " " ++ py_str windDirection;
      py_str shortForecast;
      "---" ]))))))).

Definition alerts_url (state : string) : string :=
  NWS_API_BASE ++ "/alerts?area=" ++ upper state.

Definition points_url (latitude longitude : float) : string :=
  NWS_API_BASE ++ "/points/" ++ format_4f latitude ++ "," ++ format_4f longitude.

Definition grid_failure (latitude longitude : float) : string :=
  "Failed to retrieve grid point data for coordinates: " ++ float_str latitude ++
  ", " ++ float_str longitude ++
  ". This location may not be supported by the NWS API (only US locations are supported).".

Section Tools.

Variable http_get : upstream.

(** [make_nws_request]: one call of [client.get], which gives the parsed
    body, or [None] for whatever the [try] block raises.  The list records
    the URL passed to the client, whether or not the client goes on to
    send a request for it.  A [url] that is not a string is no URL: the
    client raises on it at once and the list stays as it is.  The line
    printed on failure is not kept. *)
Definition make_nws_request (url : json) : M json :=
  fun log =>
    match url with
    | JStr u =>
        match http_get log headers u with
        | Some body => (Ok body, (log ++ [u])%list)
        | None => (Ok JNull, (log ++ [u])%list)
        end
    | _ => (Ok JNull, log)
    end.

Definition get_alerts (state : string) : M string :=
  let state_code := upper state in
  let alerts_url := NWS_API_BASE ++ "/alerts?area=" ++ state_code in
  alerts_data <- make_nws_request (JStr alerts_url) ;;
  if negb (truthy alerts_data) then ret "Failed to retrieve alerts data" else
  features <- lift (py_get alerts_data "features" (JList [])) ;;
  if negb (truthy features) then ret ("No active alerts for " ++ state_code) else
  formatted_alerts <-
    lift (bind_result (py_iter features) (map_result format_alert)) ;;
  ret ("Active alerts for " ++ state_code ++ ":" ++ nl ++ nl ++
       join nl formatted_alerts).

Definition get_forecast (latitude longitude : float) : M string :=
  let points_url :=
    NWS_API_BASE ++ "/points/" ++ format_4f latitude ++ "," ++ format_4f longitude in
  points_data <- make_nws_request (JStr points_url) ;;
  if negb (truthy points_data) then ret (grid_failure latitude longitude) else
  properties <- lift (py_get points_data "properties" (JDict [])) ;;
  forecast_url <- lift (py_get properties "forecast" JNull) ;;
  if negb (truthy forecast_url)
  then ret "Failed to get forecast URL from grid point data" else
  forecast_data <- make_nws_request forecast_url ;;
  if negb (truthy forecast_data) then ret "Failed to retrieve forecast data" else
  properties' <- lift (py_get forecast_data "properties" (JDict [])) ;;
  periods <- lift (py_get properties' "periods" (JList [])) ;;
  if negb (truthy periods) then ret "No forecast periods available" else
  formatted_forecast <-
    lift (bind_result (py_iter periods) (map_result period_text)) ;;
  ret ("Forecast for " ++ float_str latitude ++ ", " ++ float_str longitude ++
       ":" ++ nl ++ nl ++ join nl formatted_forecast).

Definition alerts_resource (state : string) : M string := get_alerts state.

Definition forecast_resource (latitude longitude : float) : M string :=
  get_forecast latitude longitude.

End Tools.

(** *** Vocabulary for the statements *)

(** What [make_nws_request] hands back for a string URL. *)
Definition response (http_get : upstream) (log : list string) (u : string) : json :=
  match http_get log headers u with
  | Some body => body
  | None => JNull
  end.

(** The body that the second request of [get_forecast] brings, made after
    the request for [first]. *)
Definition second_body (http_get : upstream) (log : list string) (first : string)
    (url : json) : json :=
  match url with
  | JStr u => response http_get (log ++ [first]) u
  | _ => JNull
  end.

Definition second_log (log : list string) (first : string) (url : json) : list string :=
  match url with
  | JStr u => ((log ++ [first]) ++ [u])%list
  | _ => (log ++ [first])%list
  end.

(** [str(entries.get(key, default))] for a string default. *)
Definition shown (entries : list (string * json)) (key default : string) : string :=
  match dict_get key entries with
  | Some v => py_str v
  | None => default
  end.

Definition is_dict (v : json) : bool :=
  match v with
  | JDict _ => true
  | _ => false
  end.

(** The member [key] is absent, or passes [ok]. *)
Definition member_ok (key : string) (ok : json -> bool) (entries : list (string * json)) : bool :=
  match dict_get key entries with
  | Some v => ok v
  | None => true
  end.

(** A value is falsy, or a list whose items all pass [ok]. *)
Definition list_of (ok : json -> bool) (v : json) : bool :=
  negb (truthy v) ||
  match v with
  | JList items => forallb ok items
  | _ => false
  end.

(** A JSON object whose [properties], when present, is a JSON object. *)
Definition alert_record (feature : json) : bool :=
  match feature with
  | JDict entries => member_ok "properties" is_dict entries
  | _ => false
  end.

(** The bodies that [get_alerts] walks through without an exception. *)
Definition alerts_shape (body : json) : bool :=
  negb (truthy body) ||
  match body with
  | JDict entries => member_ok "features" (list_of alert_record) entries
  | _ => false
  end.

(** The forecast body that [get_forecast] walks through without an
    exception. *)
Definition periods_shape (body : json) : bool :=
  negb (truthy body) ||
  match body with
  | JDict entries =>
      match dict_get "properties" entries with
      | None => true
      | Some (JDict props) => member_ok "periods" (list_of is_dict) props
      | Some _ => false
      end
  | _ => false
  end.

(** The same for the grid point body; [second url] is the body that the
    request for the forecast URL brings. *)
Definition points_shape (second : json -> json) (body : json) : bool :=
  negb (truthy body) ||
  match body with
  | JDict entries =>
      match dict_get "properties" entries with
      | None => true
      | Some (JDict props) =>
          member_ok "forecast"
            (fun url => negb (truthy url) || periods_shape (second url)) props
      | Some _ => false
      end
  | _ => false
  end.

(** The text [sign digits . four digits]. *)
Definition four_decimals (s : string) : Prop :=
  exists sign whole frac,
    s = sign ++ whole ++ "." ++ frac /\
    (sign = EmptyString \/ sign = "-") /\
    whole <> EmptyString /\ all_chars is_digit whole = true /\
    String.length frac = 4%nat /\ all_chars is_digit frac = true.

(** The block of an alert whose properties are [props]. *)
Definition alert_block (props : list (string * json)) : string :=
  join nl
    [ "Event: " ++ shown props "event" "Unknown";
      "Area: " ++ shown props "areaDesc" "Unknown";
      "Severity: " ++ shown props "severity" "Unknown";
      "Status: " ++ shown props "status" "Unknown";
      "Headline: " ++ shown props "headline" "No headline";
      "---" ].

(** The block of the period with the members [period]. *)
Definition period_block (period : list (string * json)) : string :=
  join nl
    [ shown period "name" "Unknown" ++ ":";
      "Temperature: " ++ shown period "temperature" "Unknown" ++ "°" ++
        shown period "temperatureUnit" "F";
      "Wind: " ++ shown period "windSpeed" "Unknown" ++ " " ++
        shown period "windDirection" EmptyString;
      shown period "shortForecast" "No forecast available";
      "---" ].

(** [points_data.get("properties", {}).get("forecast")] where it can be
    read: the forecast member of the properties object, [None] otherwise. *)
Definition forecast_url_of (body : json) : json :=
  match body with
  | JDict entries =>
      match dict_get "properties" entries with
      | Some (JDict props) =>
          match dict_get "forecast" props with
          | Some url => url
          | None => JNull
          end
      | _ => JNull
      end
  | _ => JNull
  end.

(** The URLs that [get_forecast] passes to the client after the first. *)
Definition later_requests (body : json) : list string :=
  match forecast_url_of body with
  | JStr (String c rest) => [String c rest]
  | _ => []
  end.

Definition is_number (v : json) : bool :=
  match v with
  | JBool _ | JInt _ | JFloat _ => true
  | _ => false
  end.

(** The members that [format_alert] reads from the properties, and the
    members that the loop of [get_forecast] reads from a period. *)
Definition alert_keys : list string :=
  ["event"; "areaDesc"; "severity"; "status"; "headline"].

Definition period_keys : list string :=
  ["name"; "temperature"; "temperatureUnit"; "windSpeed"; "windDirection";
   "shortForecast"].

(** The properties of a feature and the members of a period, empty where
    there are none to read. *)
Definition properties_of (feature : json) : list (string * json) :=
  match feature with
  | JDict entries =>
      match dict_get "properties" entries with
      | Some (JDict props) => props
      | _ => []
      end
  | _ => []
  end.

Definition members_of (period : json) : list (string * json) :=
  match period with
  | JDict entries => entries
  | _ => []
  end.

(** *** Upstreams to run the tools against *)

(** The n-th request is answered by the n-th entry of the script. *)
Definition scripted (answers : list (option json)) : upstream :=
  fun log _ _ => nth (List.length log) answers None.

(** Every request is answered by its URL alone, from a table. *)
Definition serving (table : list (string * json)) : upstream :=
  fun _ _ u => dict_get u table.

(** 12.3, 12.34567 and -97.0892 as binary64 data. *)
Definition f12_3 : float := S754_finite false 6924284427082138 (-49).
Definition f12_34567 : float := S754_finite false 6949994351454889 (-49).
Definition fm97_0892 : float := S754_finite true 6832045077214056 (-46).
Definition nan : float := S754_nan.

End Weather.

(** * Properties *)

Import PyStr PyNum Py Weather.

(** ** Strings *)

Lemma append_assoc (a b c : string) : (a ++ b) ++ c = a ++ b ++ c.
Proof. induction a as [|x a IH]; simpl; [reflexivity | now rewrite IH]. Qed.

(** ** The result monad and the loops *)

Lemma map_result_Forall2 {A B : Type} (f : A -> result B) (l : list A) (bs : list B) :
  map_result f l = Ok bs <-> Forall2 (fun a b => f a = Ok b) l bs.
Proof.
  revert bs; induction l as [|a l IH]; intros bs; simpl.
  - split; intros H.
    + injection H as <-. constructor.
    + inversion H. reflexivity.
  - destruct (f a) as [b|e] eqn:Ea; simpl.
    + destruct (map_result f l) as [bs'|e] eqn:El; simpl.
      * split; intros H.
        -- injection H as <-. constructor; [assumption | now apply IH].
        -- inversion H as [|? b0 ? bs0 Hb Hrest]; subst.
           rewrite Ea in Hb. injection Hb as <-.
           apply IH in Hrest. now injection Hrest as <-.
      * split; intros H; [discriminate|].
        inversion H as [|? b0 ? bs0 Hb Hrest]; subst.
        apply IH in Hrest. discriminate.
    + split; intros H; [discriminate|].
      inversion H as [|? b0 ? bs0 Hb Hrest]; subst. rewrite Ea in Hb. discriminate.
Qed.

Lemma map_result_ok_iff {A B : Type} (f : A -> result B) (ok : A -> bool) (l : list A) :
  (forall a, ok a = true <-> exists b, f a = Ok b) ->
  (forallb ok l = true <-> exists bs, map_result f l = Ok bs).
Proof.
  intros Hok; induction l as [|a l IH]; simpl.
  - split; [eexists; reflexivity | reflexivity].
  - rewrite andb_true_iff, IH, Hok. split.
    + intros [[b Hb] [bs Hbs]]. rewrite Hb, Hbs. simpl. eexists; reflexivity.
    + destruct (f a) as [b|e]; simpl; [|intros [? ?]; discriminate].
      destruct (map_result f l) as [bs|e]; simpl; [|intros [? ?]; discriminate].
      intros _; split; eexists; reflexivity.
Qed.

(** ** The formatters *)

Lemma format_alert_dict (d p : list (string * json)) :
  dict_get "properties" d = Some (JDict p) ->
  format_alert (JDict d) = Ok (alert_block p).
Proof.
  intros H. unfold format_alert, alert_block, shown. simpl. rewrite H. simpl.
  repeat match goal with |- context [dict_get ?k p] => destruct (dict_get k p) end;
    reflexivity.
Qed.

Lemma format_alert_bare (d : list (string * json)) :
  dict_get "properties" d = None ->
  format_alert (JDict d) = Ok (alert_block []).
Proof. intros H. unfold format_alert. simpl. rewrite H. reflexivity. Qed.

Lemma format_alert_ok_iff (feature : json) :
  alert_record feature = true <-> exists b, format_alert feature = Ok b.
Proof.
  destruct feature as [| | | | |items|d]; simpl;
    try (split; [discriminate | intros [? H]; discriminate H]).
  unfold member_ok.
  destruct (dict_get "properties" d) as [v|] eqn:E.
  - destruct v; simpl;
      try (split; [discriminate | intros [? H]; unfold format_alert in H; simpl in H;
                                   rewrite E in H; discriminate H]).
    split; [intros _ | reflexivity].
    rewrite (format_alert_dict _ _ E). eexists; reflexivity.
  - split; [intros _ | reflexivity].
    rewrite (format_alert_bare _ E). eexists; reflexivity.
Qed.

Lemma format_alert_raises (feature : json) :
  alert_record feature = false -> format_alert feature = Raise AttributeError.
Proof.
  destruct feature as [| | | | |items|d]; simpl; try reflexivity.
  unfold member_ok, format_alert. simpl.
  destruct (dict_get "properties" d) as [v|]; [|discriminate].
  destruct v; simpl; try reflexivity. discriminate.
Qed.

Lemma period_text_dict (d : list (string * json)) :
  period_text (JDict d) = Ok (period_block d).
Proof.
  unfold period_text, period_block, shown. simpl.
  repeat match goal with |- context [dict_get ?k d] => destruct (dict_get k d) end;
    reflexivity.
Qed.

Lemma period_text_raises (period : json) :
  is_dict period = false -> period_text period = Raise AttributeError.
Proof. destruct period; simpl; try reflexivity. discriminate. Qed.

Lemma period_text_ok_iff (period : json) :
  is_dict period = true <-> exists b, period_text period = Ok b.
Proof.
  destruct period as [| | | | |items|d]; simpl;
    try (split; [discriminate | intros [? H]; discriminate H]).
  split; [intros _ | reflexivity]. rewrite period_text_dict. eexists; reflexivity.
Qed.

(** ** The tools, step by step *)

Lemma make_nws_request_str (http_get : upstream) (u : string) (log : list string) :
  make_nws_request http_get (JStr u) log = (Ok (response http_get log u), (log ++ [u])%list).
Proof.
  unfold make_nws_request, response. destruct (http_get log headers u); reflexivity.
Qed.

Lemma get_alerts_steps (http_get : upstream) (state : string) (log : list string) :
  get_alerts http_get state log =
  let url := alerts_url state in
  let body := response http_get log url in
  let log' := (log ++ [url])%list in
  if negb (truthy body) then (Ok "Failed to retrieve alerts data", log')
  else
    match py_get body "features" (JList []) with
    | Raise e => (Raise e, log')
    | Ok features =>
        if negb (truthy features)
        then (Ok ("No active alerts for " ++ upper state), log')
        else
          match bind_result (py_iter features) (map_result format_alert) with
          | Raise e => (Raise e, log')
          | Ok blocks =>
              (Ok ("Active alerts for " ++ upper state ++ ":" ++ nl ++ nl ++
                   join nl blocks), log')
          end
    end.
Proof.
  unfold get_alerts, bind, alerts_url. rewrite make_nws_request_str.
  cbv zeta.
  destruct (negb (truthy _)); [reflexivity|].
  unfold lift. destruct (py_get _ _ _) as [features|e]; [|reflexivity].
  destruct (negb (truthy features)); [reflexivity|].
  destruct (bind_result _ _); reflexivity.
Qed.

Lemma make_nws_request_second (http_get : upstream) (log : list string) (first : string)
    (url : json) :
  make_nws_request http_get url (log ++ [first])%list
  = (Ok (second_body http_get log first url), second_log log first url).
Proof.
  destruct url; try reflexivity. simpl. apply make_nws_request_str.
Qed.

Lemma get_forecast_steps (http_get : upstream) (latitude longitude : float)
    (log : list string) :
  get_forecast http_get latitude longitude log =
  let first := points_url latitude longitude in
  let body := response http_get log first in
  let log1 := (log ++ [first])%list in
  if negb (truthy body) then (Ok (grid_failure latitude longitude), log1)
  else
    match bind_result (py_get body "properties" (JDict []))
            (fun properties => py_get properties "forecast" JNull) with
    | Raise e => (Raise e, log1)
    | Ok url =>
        if negb (truthy url)
        then (Ok "Failed to get forecast URL from grid point data", log1)
        else
          let body2 := second_body http_get log first url in
          let log2 := second_log log first url in
          if negb (truthy body2) then (Ok "Failed to retrieve forecast data", log2)
          else
            match bind_result (py_get body2 "properties" (JDict []))
                    (fun properties => py_get properties "periods" (JList [])) with
            | Raise e => (Raise e, log2)
            | Ok periods =>
                if negb (truthy periods)
                then (Ok "No forecast periods available", log2)
                else
                  match bind_result (py_iter periods) (map_result period_text) with
                  | Raise e => (Raise e, log2)
                  | Ok blocks =>
                      (Ok ("Forecast for " ++ float_str latitude ++ ", " ++
                           float_str longitude ++ ":" ++ nl ++ nl ++ join nl blocks),
                       log2)
                  end
            end
    end.
Proof.
  unfold get_forecast, bind, points_url. rewrite make_nws_request_str.
  cbv zeta.
  destruct (negb (truthy _)); [reflexivity|].
  unfold lift. destruct (py_get _ "properties" _) as [properties|e]; [|reflexivity].
  simpl bind_result.
  destruct (py_get properties _ _) as [url|e]; [|reflexivity].
  destruct (negb (truthy url)); [reflexivity|].
  rewrite make_nws_request_second.
  destruct (negb (truthy _)); [reflexivity|].
  destruct (py_get _ "properties" _) as [properties'|e]; [|reflexivity].
  simpl bind_result.
  destruct (py_get properties' _ _) as [periods|e]; [|reflexivity].
  destruct (negb (truthy periods)); [reflexivity|].
  destruct (bind_result _ _); reflexivity.
Qed.

(** ** The alert formatter *)

(** C5, as the code has it: for every alert record whose [properties]
    member is absent or a JSON object, [format_alert] returns the five
    labelled lines Event, Area, Severity, Status, Headline and the
    separator line, each absent field replaced by its placeholder
    (Unknown, and No headline for the headline); it returns without an
    exception there. *)
Theorem format_alert_five_lines (d p : list (string * json)) :
  (dict_get "properties" d = None /\ p = []) \/ dict_get "properties" d = Some (JDict p) ->
  format_alert (JDict d) =
    Ok ("Event: " ++ shown p "event" "Unknown" ++ nl ++
        "Area: " ++ shown p "areaDesc" "Unknown" ++ nl ++
        "Severity: " ++ shown p "severity" "Unknown" ++ nl ++
        "Status: " ++ shown p "status" "Unknown" ++ nl ++
        "Headline: " ++ shown p "headline" "No headline" ++ nl ++
        "---")
  /\ (forall key default, dict_get key p = None -> shown p key default = default)
  /\ (forall key default v, dict_get key p = Some v -> shown p key default = py_str v).
Proof.
  intros H. split; [|split].
  - assert (E : format_alert (JDict d) = Ok (alert_block p)).
    { destruct H as [[H ->]|H]; [apply format_alert_bare | apply format_alert_dict];
        assumption. }
    rewrite E. unfold alert_block. simpl join.
    repeat rewrite append_assoc. reflexivity.
  - intros key default E. unfold shown. rewrite E. reflexivity.
  - intros key default v E. unfold shown. rewrite E. reflexivity.
Qed.

(** An alert with a headline only, and one with no properties at all. *)
Lemma format_alert_five_lines_witness :
  format_alert (JDict [("properties", JDict [("headline", JStr "Flood Warning")])]) =
    Ok ("Event: Unknown" ++ nl ++ "Area: Unknown" ++ nl ++ "Severity: Unknown" ++ nl ++
        "Status: Unknown" ++ nl ++ "Headline: Flood Warning" ++ nl ++ "---")
  /\ format_alert (JDict []) =
    Ok ("Event: Unknown" ++ nl ++ "Area: Unknown" ++ nl ++ "Severity: Unknown" ++ nl ++
        "Status: Unknown" ++ nl ++ "Headline: No headline" ++ nl ++ "---").
Proof.
  split.
  - exact (proj1 (format_alert_five_lines
             [("properties", JDict [("headline", JStr "Flood Warning")])]
             [("headline", JStr "Flood Warning")] (or_intror eq_refl))).
  - exact (proj1 (format_alert_five_lines [] [] (or_introl (conj eq_refl eq_refl)))).
Defined.

(** C5 as stated fails: an alert record whose [properties] member is the
    JSON null makes [format_alert] raise AttributeError, so the function
    has a failure mode. *)
Lemma format_alert_null_properties :
  format_alert (JDict [("properties", JNull)]) = Raise AttributeError
  /\ forall block, format_alert (JDict [("properties", JNull)]) <> Ok block.
Proof. split; [reflexivity | intros block H; discriminate H]. Qed.

(** ** The forecast block *)

(** C10: the placeholders of the forecast block differ by field: an absent
    name, temperature or windSpeed shows Unknown, an absent
    temperatureUnit shows F, so that a temperature without a unit reads
    Temperature: value followed by the degree sign and F, and an absent
    windDirection shows the empty string, which leaves the Wind line with
    a trailing space. *)
Theorem period_text_placeholders (period : list (string * json)) :
  period_text (JDict period) =
    Ok (join nl
         [ shown period "name" "Unknown" ++ ":";
           "Temperature: " ++ shown period "temperature" "Unknown" ++ "°" ++
             shown period "temperatureUnit" "F";
           "Wind: " ++ shown period "windSpeed" "Unknown" ++ " " ++
             shown period "windDirection" EmptyString;
           shown period "shortForecast" "No forecast available";
           "---" ])
  /\ (dict_get "name" period = None -> shown period "name" "Unknown" = "Unknown")
  /\ (dict_get "temperature" period = None ->
        shown period "temperature" "Unknown" = "Unknown")
  /\ (dict_get "windSpeed" period = None ->
        shown period "windSpeed" "Unknown" = "Unknown")
  /\ (forall v, dict_get "temperature" period = Some v ->
        dict_get "temperatureUnit" period = None ->
        "Temperature: " ++ shown period "temperature" "Unknown" ++ "°" ++
          shown period "temperatureUnit" "F"
        = "Temperature: " ++ py_str v ++ "°F")
  /\ (dict_get "windDirection" period = None ->
        "Wind: " ++ shown period "windSpeed" "Unknown" ++ " " ++
          shown period "windDirection" EmptyString
        = ("Wind: " ++ shown period "windSpeed" "Unknown") ++ " ").
Proof.
  split; [apply period_text_dict|].
  unfold shown.
  repeat split.
  - intros ->; reflexivity.
  - intros ->; reflexivity.
  - intros ->; reflexivity.
  - intros v -> ->; reflexivity.
  - intros ->. rewrite append_assoc. reflexivity.
Qed.

(** A period with a temperature and a wind speed only. *)
Lemma period_text_placeholders_witness :
  period_text (JDict [("temperature", JInt 40); ("windSpeed", JStr "5 mph")]) =
    Ok ("Unknown:" ++ nl ++ "Temperature: 40°F" ++ nl ++ "Wind: 5 mph " ++ nl ++
        "No forecast available" ++ nl ++ "---")
  /\ "Temperature: " ++ shown [("temperature", JInt 40); ("windSpeed", JStr "5 mph")]
         "temperature" "Unknown" ++ "°" ++
       shown [("temperature", JInt 40); ("windSpeed", JStr "5 mph")] "temperatureUnit" "F"
     = "Temperature: " ++ py_str (JInt 40) ++ "°F".
Proof.
  pose proof (period_text_placeholders
                [("temperature", JInt 40); ("windSpeed", JStr "5 mph")]) as H.
  split.
  - exact (proj1 H).
  - exact (proj1 (proj2 (proj2 (proj2 (proj2 H)))) (JInt 40) eq_refl eq_refl).
Defined.

(** ** The resource adapters *)

(** C7: each resource adapter returns what its tool returns on the same
    input, against the same upstream and after the same requests: the
    result and the requests made are equal. *)
Theorem resources_delegate (http_get : upstream) (log : list string) :
  (forall state, alerts_resource http_get state log = get_alerts http_get state log)
  /\ (forall latitude longitude,
        forecast_resource http_get latitude longitude log
        = get_forecast http_get latitude longitude log).
Proof. split; reflexivity. Qed.

(** ** The alerts tool *)

Lemma dict_truthy (d : list (string * json)) : d <> [] -> truthy (JDict d) = true.
Proof. destruct d; [intros H; now elim H | reflexivity]. Qed.

Lemma list_truthy (l : list json) : l <> [] -> truthy (JList l) = true.
Proof. destruct l; [intros H; now elim H | reflexivity]. Qed.

(** C1, as the code has it: [get_alerts] makes one request and returns
    - the failure message when the Fetcher signals failure or hands back
      an empty (falsy) body;
    - the no-active-alerts message with the uppercased code when the body
      is a non-empty JSON object whose features are absent or the empty
      list;
    - when the body is a JSON object whose features are a list of N>=1
      alert records (JSON objects whose properties are absent or a JSON
      object): the header with the uppercased code and the N blocks of
      [format_alert], joined by newlines in the order of the list. *)
Theorem get_alerts_outcomes (http_get : upstream) (state : string) (log : list string) :
  let url := NWS_API_BASE ++ "/alerts?area=" ++ upper state in
  let body := response http_get log url in
  let log' := (log ++ [url])%list in
  (truthy body = false ->
     get_alerts http_get state log = (Ok "Failed to retrieve alerts data", log'))
  /\ (forall d, body = JDict d -> d <> [] ->
        dict_get "features" d = None \/ dict_get "features" d = Some (JList []) ->
        get_alerts http_get state log
        = (Ok ("No active alerts for " ++ upper state), log'))
  /\ (forall d features, body = JDict d ->
        dict_get "features" d = Some (JList features) -> features <> [] ->
        forallb alert_record features = true ->
        exists blocks,
          Forall2 (fun feature block => format_alert feature = Ok block) features blocks
          /\ List.length blocks = List.length features
          /\ get_alerts http_get state log
             = (Ok ("Active alerts for " ++ upper state ++ ":" ++ nl ++ nl ++
                    join nl blocks), log')).
Proof.
  cbv zeta. rewrite get_alerts_steps. unfold alerts_url. cbv zeta.
  split; [|split].
  - intros ->. reflexivity.
  - intros d -> Hd Hf. rewrite (dict_truthy d Hd). simpl.
    destruct Hf as [-> | ->]; reflexivity.
  - intros d features -> Hf Hne Hrec.
    assert (Hd : d <> []) by (intros ->; discriminate Hf).
    rewrite (dict_truthy d Hd). simpl. rewrite Hf.
    rewrite (list_truthy features Hne). simpl.
    destruct (proj1 (map_result_ok_iff format_alert alert_record features
                       format_alert_ok_iff) Hrec) as [blocks Hb].
    rewrite Hb. exists blocks.
    apply map_result_Forall2 in Hb.
    split; [assumption|]. split; [|reflexivity].
    symmetry. eapply Forall2_length. eassumption.
Qed.

(** The three outcomes, each at an upstream that leads to it, and a code
    outside ASCII, whose uppercase the message echoes. *)
Lemma get_alerts_outcomes_witness :
  run (get_alerts (scripted [None]) "ny")
    = (Ok "Failed to retrieve alerts data", ["https://api.weather.gov/alerts?area=NY"])
  /\ run (get_alerts (scripted [Some (JDict [("features", JList [])])]) "ny")
    = (Ok "No active alerts for NY", ["https://api.weather.gov/alerts?area=NY"])
  /\ run (get_alerts (scripted [Some (JDict [("features", JList [])])]) "ß")
    = (Ok "No active alerts for SS", ["https://api.weather.gov/alerts?area=SS"])
  /\ exists blocks,
       Forall2 (fun feature block => format_alert feature = Ok block)
         [JDict [("properties", JDict [("event", JStr "Flood")])]; JDict []] blocks
       /\ List.length blocks = 2%nat
       /\ run (get_alerts
                 (scripted [Some (JDict [("features",
                    JList [JDict [("properties", JDict [("event", JStr "Flood")])];
                           JDict []])])]) "ny")
          = (Ok ("Active alerts for NY:" ++ nl ++ nl ++ join nl blocks),
             ["https://api.weather.gov/alerts?area=NY"]).
Proof.
  split; [|split; [|split]].
  - exact (proj1 (get_alerts_outcomes (scripted [None]) "ny" []) eq_refl).
  - refine (proj1 (proj2 (get_alerts_outcomes
              (scripted [Some (JDict [("features", JList [])])]) "ny" []))
              [("features", JList [])] eq_refl _ (or_intror eq_refl)).
    discriminate.
  - etransitivity.
    + refine (proj1 (proj2 (get_alerts_outcomes
                (scripted [Some (JDict [("features", JList [])])]) "ß" []))
                [("features", JList [])] eq_refl _ (or_intror eq_refl)).
      discriminate.
    + vm_compute. reflexivity.
  - refine (proj2 (proj2 (get_alerts_outcomes
              (scripted [Some (JDict [("features",
                 JList [JDict [("properties", JDict [("event", JStr "Flood")])];
                        JDict []])])]) "ny" []))
              _ _ eq_refl eq_refl _ eq_refl).
    discriminate.
Defined.

(** C1 as stated fails on two Fetcher outcomes.  A body with one feature
    whose [properties] is the JSON null gives none of the three results: an
    AttributeError leaves the tool.  A fetch that succeeds with the empty
    JSON object, a body with zero features, gives the failure message and
    not the no-active-alerts one. *)
Lemma get_alerts_outside_three_results :
  run (get_alerts
         (scripted [Some (JDict [("features", JList [JDict [("properties", JNull)]])])])
         "ca")
    = (Raise AttributeError, ["https://api.weather.gov/alerts?area=CA"])
  /\ run (get_alerts (scripted [Some (JDict [])]) "ca")
    = (Ok "Failed to retrieve alerts data", ["https://api.weather.gov/alerts?area=CA"])
  /\ run (get_alerts (scripted [Some (JDict [])]) "ca")
    <> (Ok "No active alerts for CA", ["https://api.weather.gov/alerts?area=CA"]).
Proof. repeat split; try reflexivity. intros H; discriminate H. Qed.

(** *** Letter case *)


Lemma upper_char_idempotent (c : ascii) : upper_char (upper_char c) = upper_char c.
Proof. destruct c as [[] [] [] [] [] [] [] []]; reflexivity. Qed.

Lemma upper_char_ascii (c : ascii) : is_ascii (upper_char c) = is_ascii c.
Proof. destruct c as [[] [] [] [] [] [] [] []]; reflexivity. Qed.


















Lemma code_points_ascii (s : string) :
  all_chars is_ascii s = true ->
  code_points s = map (fun c => String c EmptyString) (list_ascii_of_string s).
Proof.
  induction s as [|c s IH]; simpl; [reflexivity|].
  rewrite andb_true_iff. intros [Hc Hs]. rewrite (IH Hs).
  destruct s as [|d s]; [reflexivity|]. simpl.
  simpl in Hs. rewrite andb_true_iff in Hs. destruct Hs as [Hd _].
  assert (Hn : is_continuation d = false).
  { revert Hd. destruct d as [[] [] [] [] [] [] [] []]; try reflexivity; discriminate. }
  now rewrite Hn.
Qed.

Lemma upper_ascii (s : string) :
  all_chars is_ascii s = true -> upper s = map_chars upper_char s.
Proof.
  intros H. unfold upper. rewrite (code_points_ascii s H). clear H.
  induction s as [|c s IH]; simpl; [reflexivity|].
  destruct s as [|d s]; [reflexivity|].
  simpl in IH |- *. now rewrite IH.
Qed.


Lemma length_map_chars (f : ascii -> ascii) (s : string) :
  String.length (map_chars f s) = String.length s.
Proof. induction s as [|c s IH]; simpl; [reflexivity | now rewrite IH]. Qed.

Lemma get_alerts_by_upper (http_get : upstream) (s t : string) (log : list string) :
  upper s = upper t -> get_alerts http_get s log = get_alerts http_get t log.
Proof. intros H. unfold get_alerts. rewrite H. reflexivity. Qed.



(** ** The forecast tool: the failure messages *)

Lemma str_truthy (u : string) : u <> EmptyString -> truthy (JStr u) = true.
Proof. destruct u; [intros H; now elim H | reflexivity]. Qed.

Lemma dict_get_nonempty (key : string) (d : list (string * json)) (v : json) :
  dict_get key d = Some v -> d <> [].
Proof. intros H ->. discriminate H. Qed.

(** C2, as the code has it: [get_forecast] returns the message of the
    first failing step:
    - when the grid point fetch fails or brings an empty (falsy) body, the
      message with [str(latitude)] and [str(longitude)], the input
      coordinates as given;
    - when it brings a non-empty JSON object whose properties are absent,
      or are an object with no forecast member, the forecast URL message;
    - when the second fetch fails or brings an empty body, the forecast
      data message;
    - when it brings a JSON object whose properties hold an empty periods
      list, the no-periods message. *)
Theorem get_forecast_failure_messages (http_get : upstream) (latitude longitude : float)
    (log : list string) :
  let first :=
    NWS_API_BASE ++ "/points/" ++ format_4f latitude ++ "," ++ format_4f longitude in
  let body := response http_get log first in
  let log1 := (log ++ [first])%list in
  (truthy body = false ->
     get_forecast http_get latitude longitude log
     = (Ok ("Failed to retrieve grid point data for coordinates: " ++
            float_str latitude ++ ", " ++ float_str longitude ++
            ". This location may not be supported by the NWS API (only US locations are supported)."),
        log1))
  /\ (forall d, body = JDict d -> d <> [] ->
        dict_get "properties" d = None \/
        (exists p, dict_get "properties" d = Some (JDict p) /\ dict_get "forecast" p = None) ->
        get_forecast http_get latitude longitude log
        = (Ok "Failed to get forecast URL from grid point data", log1))
  /\ (forall d p u, body = JDict d ->
        dict_get "properties" d = Some (JDict p) ->
        dict_get "forecast" p = Some (JStr u) -> u <> EmptyString ->
        let body2 := response http_get log1 u in
        let log2 := (log1 ++ [u])%list in
        (truthy body2 = false ->
           get_forecast http_get latitude longitude log
           = (Ok "Failed to retrieve forecast data", log2))
        /\ (forall d2 p2, body2 = JDict d2 ->
              dict_get "properties" d2 = Some (JDict p2) ->
              dict_get "periods" p2 = Some (JList []) ->
              get_forecast http_get latitude longitude log
              = (Ok "No forecast periods available", log2))).
Proof.
  cbv zeta. rewrite get_forecast_steps. unfold points_url, grid_failure. cbv zeta.
  split; [|split].
  - intros ->. reflexivity.
  - intros d -> Hd H. rewrite (dict_truthy d Hd). simpl.
    destruct H as [-> | [p [-> Hp]]]; simpl; [reflexivity|].
    rewrite Hp. reflexivity.
  - intros d p u -> Hp Hu Hne.
    rewrite (dict_truthy d (dict_get_nonempty _ _ _ Hp)). simpl.
    rewrite Hp; simpl. rewrite Hu. rewrite (str_truthy u Hne). simpl negb. cbv iota.
    unfold second_body, second_log. split.
    + intros ->. reflexivity.
    + intros d2 p2 -> Hp2 Hps.
      rewrite (dict_truthy d2 (dict_get_nonempty _ _ _ Hp2)). simpl.
      rewrite Hp2; simpl. rewrite Hps. reflexivity.
Qed.

(** The four messages, each at an upstream that leads to it; the first one
    shows 12.34567 as given, where the URL has 12.3457. *)
Lemma get_forecast_failure_messages_witness :
  run (get_forecast (scripted [None]) f12_34567 fm97_0892)
    = (Ok "Failed to retrieve grid point data for coordinates: 12.34567, -97.0892. This location may not be supported by the NWS API (only US locations are supported).",
       ["https://api.weather.gov/points/12.3457,-97.0892"])
  /\ run (get_forecast (scripted [Some (JDict [("properties", JDict [])])])
            f12_34567 fm97_0892)
    = (Ok "Failed to get forecast URL from grid point data",
       ["https://api.weather.gov/points/12.3457,-97.0892"])
  /\ run (get_forecast
            (scripted [Some (JDict [("properties", JDict [("forecast", JStr "https://f")])]);
                       None])
            f12_34567 fm97_0892)
    = (Ok "Failed to retrieve forecast data",
       ["https://api.weather.gov/points/12.3457,-97.0892"; "https://f"])
  /\ run (get_forecast
            (scripted [Some (JDict [("properties", JDict [("forecast", JStr "https://f")])]);
                       Some (JDict [("properties", JDict [("periods", JList [])])])])
            f12_34567 fm97_0892)
    = (Ok "No forecast periods available",
       ["https://api.weather.gov/points/12.3457,-97.0892"; "https://f"]).
Proof.
  split; [|split; [|split]].
  - exact (proj1 (get_forecast_failure_messages (scripted [None]) f12_34567 fm97_0892 [])
             eq_refl).
  - refine (proj1 (proj2 (get_forecast_failure_messages
              (scripted [Some (JDict [("properties", JDict [])])]) f12_34567 fm97_0892 []))
              _ eq_refl _ (or_intror (ex_intro _ [] (conj eq_refl eq_refl)))).
    discriminate.
  - refine (proj1 (proj2 (proj2 (get_forecast_failure_messages
              (scripted [Some (JDict [("properties", JDict [("forecast", JStr "https://f")])]);
                         None]) f12_34567 fm97_0892 []))
              _ _ "https://f" eq_refl eq_refl eq_refl _) eq_refl).
    discriminate.
  - refine (proj2 (proj2 (proj2 (get_forecast_failure_messages
              (scripted [Some (JDict [("properties", JDict [("forecast", JStr "https://f")])]);
                         Some (JDict [("properties", JDict [("periods", JList [])])])])
              f12_34567 fm97_0892 []))
              _ _ "https://f" eq_refl eq_refl eq_refl _) _ _ eq_refl eq_refl eq_refl).
    discriminate.
Defined.

(** C2 as stated fails where the grid point fetch succeeds with the empty
    JSON object: [properties.forecast] is absent, and the tool returns the
    grid point message of the first step, not the forecast URL message. *)
Lemma get_forecast_empty_grid_body :
  run (get_forecast (scripted [Some (JDict [])]) f12_3 fm97_0892)
    = (Ok "Failed to retrieve grid point data for coordinates: 12.3, -97.0892. This location may not be supported by the NWS API (only US locations are supported).",
       ["https://api.weather.gov/points/12.3000,-97.0892"])
  /\ fst (run (get_forecast (scripted [Some (JDict [])]) f12_3 fm97_0892))
     <> Ok "Failed to get forecast URL from grid point data".
Proof. split; [vm_compute; reflexivity | vm_compute; intros H; discriminate H]. Qed.

(** ** The forecast tool: the forecast text *)

(** C3: when the grid point fetch brings a forecast URL, the fetch of that
    URL brings a non-empty list of periods (JSON objects), [get_forecast]
    returns the header with the input coordinates followed by one block
    per period, in the order of the list, joined by newlines.  The header
    shows each coordinate as [str] shows a float, with its sign, and not
    in the four-decimal form of the URL: 12.34567 reads 12.34567 there.
    A block is the name with a colon, the Temperature line with value,
    degree sign and unit, the Wind line with speed and direction, the
    short forecast and the separator; the period Tonight of the
    specification gives the block
    Tonight: / Temperature: 40°F / Wind: 5 mph N / Clear / ---. *)
Theorem get_forecast_blocks (http_get : upstream) (latitude longitude : float)
    (log : list string) (d p d2 p2 : list (string * json)) (u : string)
    (periods : list (list (string * json))) :
  let first :=
    NWS_API_BASE ++ "/points/" ++ format_4f latitude ++ "," ++ format_4f longitude in
  http_get log headers first = Some (JDict d) ->
  dict_get "properties" d = Some (JDict p) ->
  dict_get "forecast" p = Some (JStr u) -> u <> EmptyString ->
  http_get (log ++ [first])%list headers u = Some (JDict d2) ->
  dict_get "properties" d2 = Some (JDict p2) ->
  dict_get "periods" p2 = Some (JList (map JDict periods)) ->
  periods <> [] ->
  get_forecast http_get latitude longitude log
  = (Ok ("Forecast for " ++ float_str latitude ++ ", " ++ float_str longitude ++
         ":" ++ nl ++ nl ++ join nl (map period_block periods)),
     ((log ++ [first]) ++ [u])%list)
  /\ (forall m e, float_str (S754_finite true m e) = "-" ++ float_str (S754_finite false m e))
  /\ (float_str f12_34567 = "12.34567" /\ format_4f f12_34567 = "12.3457" /\
      float_str fm97_0892 = "-97.0892" /\ float_str f12_3 = "12.3")
  /\ (forall period,
        period_block period =
          shown period "name" "Unknown" ++ ":" ++ nl ++
          "Temperature: " ++ shown period "temperature" "Unknown" ++ "°" ++
            shown period "temperatureUnit" "F" ++ nl ++
          "Wind: " ++ shown period "windSpeed" "Unknown" ++ " " ++
            shown period "windDirection" EmptyString ++ nl ++
          shown period "shortForecast" "No forecast available" ++ nl ++
          "---")
  /\ period_block
       [("name", JStr "Tonight"); ("temperature", JInt 40); ("temperatureUnit", JStr "F");
        ("windSpeed", JStr "5 mph"); ("windDirection", JStr "N");
        ("shortForecast", JStr "Clear")]
     = "Tonight:" ++ nl ++ "Temperature: 40°F" ++ nl ++ "Wind: 5 mph N" ++ nl ++
       "Clear" ++ nl ++ "---".
Proof.
  cbv zeta. intros H1 Hp Hu Hne H2 Hp2 Hps Hnn.
  split; [|split; [|split; [|split]]].
  - rewrite get_forecast_steps. unfold points_url. cbv zeta.
    remember (NWS_API_BASE ++ "/points/" ++ format_4f latitude ++ "," ++
              format_4f longitude) as first eqn:Efirst.
    clear Efirst.
    unfold response. rewrite H1.
    rewrite (dict_truthy d (dict_get_nonempty _ _ _ Hp)). simpl.
    rewrite Hp; simpl. rewrite Hu. rewrite (str_truthy u Hne). simpl negb. cbv iota.
    unfold second_body, second_log, response. rewrite H2.
    rewrite (dict_truthy d2 (dict_get_nonempty _ _ _ Hp2)). simpl.
    rewrite Hp2; simpl. rewrite Hps.
    assert (Hm : map JDict periods <> []) by (destruct periods; [now elim Hnn | discriminate]).
    rewrite (list_truthy _ Hm). simpl.
    assert (E : map_result period_text (map JDict periods) = Ok (map period_block periods)).
    { clear. induction periods as [|x l IH]; simpl; [reflexivity|].
      rewrite period_text_dict. simpl. rewrite IH. reflexivity. }
    rewrite E. reflexivity.
  - intros m e. unfold float_str. destruct (shortest_digits m e). reflexivity.
  - repeat split; vm_compute; reflexivity.
  - intros period. unfold period_block. simpl join.
    repeat rewrite append_assoc. reflexivity.
  - reflexivity.
Qed.

(** The period Tonight and a period with no member, after a grid point that
    names the forecast URL, for the coordinates 12.34567 and -97.0892. *)
Lemma get_forecast_blocks_witness :
  let tonight :=
    [("name", JStr "Tonight"); ("temperature", JInt 40); ("temperatureUnit", JStr "F");
     ("windSpeed", JStr "5 mph"); ("windDirection", JStr "N");
     ("shortForecast", JStr "Clear")] in
  run (get_forecast
         (scripted
            [Some (JDict [("properties", JDict [("forecast", JStr "https://f")])]);
             Some (JDict [("properties",
                           JDict [("periods", JList (map JDict [tonight; []]))])])])
         f12_34567 fm97_0892)
  = (Ok ("Forecast for 12.34567, -97.0892:" ++ nl ++ nl ++
         "Tonight:" ++ nl ++ "Temperature: 40°F" ++ nl ++ "Wind: 5 mph N" ++ nl ++
         "Clear" ++ nl ++ "---" ++ nl ++
         "Unknown:" ++ nl ++ "Temperature: Unknown°F" ++ nl ++ "Wind: Unknown " ++ nl ++
         "No forecast available" ++ nl ++ "---"),
     ["https://api.weather.gov/points/12.3457,-97.0892"; "https://f"]).
Proof.
  cbv zeta. etransitivity.
  - refine (proj1 (get_forecast_blocks
              (scripted
                 [Some (JDict [("properties", JDict [("forecast", JStr "https://f")])]);
                  Some (JDict [("properties",
                                JDict [("periods", JList (map JDict _))])])])
              f12_34567 fm97_0892 [] _ _ _ _ "https://f" _
              eq_refl eq_refl eq_refl _ eq_refl eq_refl eq_refl _)); discriminate.
  - vm_compute. reflexivity.
Defined.

(** ** Empty bodies *)

(** C9: the tools test the body, not the failure signal alone.  A fetch
    that succeeds with an empty body (the empty JSON object is one) gives
    the message that a failed fetch gives: the alerts failure message in
    [get_alerts], the grid point message and the forecast data message in
    [get_forecast]; and a forecast URL that is the empty string gives the
    message of an absent forecast URL. *)
Theorem empty_body_is_failure (http_get : upstream) (log : list string) :
  truthy (JDict []) = false
  /\ (forall state body,
        http_get log headers (alerts_url state) = None \/
        (http_get log headers (alerts_url state) = Some body /\ truthy body = false) ->
        get_alerts http_get state log
        = (Ok "Failed to retrieve alerts data", (log ++ [alerts_url state])%list))
  /\ (forall latitude longitude body,
        let first := points_url latitude longitude in
        http_get log headers first = None \/
        (http_get log headers first = Some body /\ truthy body = false) ->
        get_forecast http_get latitude longitude log
        = (Ok (grid_failure latitude longitude), (log ++ [first])%list))
  /\ (forall latitude longitude d p u body,
        let first := points_url latitude longitude in
        http_get log headers first = Some (JDict d) ->
        dict_get "properties" d = Some (JDict p) ->
        dict_get "forecast" p = Some (JStr u) -> u <> EmptyString ->
        http_get (log ++ [first])%list headers u = None \/
        (http_get (log ++ [first])%list headers u = Some body /\ truthy body = false) ->
        get_forecast http_get latitude longitude log
        = (Ok "Failed to retrieve forecast data", ((log ++ [first]) ++ [u])%list))
  /\ (forall latitude longitude d p,
        let first := points_url latitude longitude in
        http_get log headers first = Some (JDict d) ->
        dict_get "properties" d = Some (JDict p) ->
        dict_get "forecast" p = None \/ dict_get "forecast" p = Some (JStr EmptyString) ->
        get_forecast http_get latitude longitude log
        = (Ok "Failed to get forecast URL from grid point data", (log ++ [first])%list)).
Proof.
  split; [reflexivity|]. split; [|split; [|split]].
  - intros state body H. rewrite get_alerts_steps. cbv zeta. unfold response.
    destruct H as [-> | [-> Hb]]; [reflexivity|]. rewrite Hb. reflexivity.
  - intros latitude longitude body first H. subst first.
    rewrite get_forecast_steps. cbv zeta. unfold response.
    destruct H as [-> | [-> Hb]]; [reflexivity|]. rewrite Hb. reflexivity.
  - intros latitude longitude d p u body first H1 Hp Hu Hne H2. subst first.
    rewrite get_forecast_steps. cbv zeta. unfold response at 1 2. rewrite H1.
    rewrite (dict_truthy d (dict_get_nonempty _ _ _ Hp)). simpl.
    rewrite Hp; simpl. rewrite Hu. rewrite (str_truthy u Hne). simpl negb. cbv iota.
    unfold second_body, second_log, response.
    destruct H2 as [-> | [-> Hb]]; [reflexivity|]. rewrite Hb. reflexivity.
  - intros latitude longitude d p first H1 Hp Hu. subst first.
    rewrite get_forecast_steps. cbv zeta. unfold response. rewrite H1.
    rewrite (dict_truthy d (dict_get_nonempty _ _ _ Hp)). simpl.
    rewrite Hp; simpl. destruct Hu as [-> | ->]; reflexivity.
Qed.

(** The empty JSON object as the body of each request, and the empty
    string as the forecast URL. *)
Lemma empty_body_is_failure_witness :
  run (get_alerts (scripted [Some (JDict [])]) "ca")
    = run (get_alerts (scripted [None]) "ca")
  /\ run (get_forecast (scripted [Some (JDict [])]) f12_3 fm97_0892)
    = run (get_forecast (scripted [None]) f12_3 fm97_0892)
  /\ run (get_forecast
            (scripted [Some (JDict [("properties", JDict [("forecast", JStr "https://f")])]);
                       Some (JDict [])]) f12_3 fm97_0892)
    = (Ok "Failed to retrieve forecast data",
       ["https://api.weather.gov/points/12.3000,-97.0892"; "https://f"])
  /\ run (get_forecast
            (scripted [Some (JDict [("properties", JDict [("forecast", JStr EmptyString)])])])
            f12_3 fm97_0892)
    = (Ok "Failed to get forecast URL from grid point data",
       ["https://api.weather.gov/points/12.3000,-97.0892"]).
Proof.
  split; [|split; [|split]].
  - unfold run.
    rewrite (proj1 (proj2 (empty_body_is_failure (scripted [Some (JDict [])]) []))
               "ca" (JDict []) (or_intror (conj eq_refl eq_refl))).
    rewrite (proj1 (proj2 (empty_body_is_failure (scripted [None]) []))
               "ca" JNull (or_introl eq_refl)).
    reflexivity.
  - unfold run.
    rewrite (proj1 (proj2 (proj2 (empty_body_is_failure (scripted [Some (JDict [])]) [])))
               f12_3 fm97_0892 (JDict []) (or_intror (conj eq_refl eq_refl))).
    rewrite (proj1 (proj2 (proj2 (empty_body_is_failure (scripted [None]) [])))
               f12_3 fm97_0892 JNull (or_introl eq_refl)).
    reflexivity.
  - refine (proj1 (proj2 (proj2 (proj2 (empty_body_is_failure
              (scripted [Some (JDict [("properties", JDict [("forecast", JStr "https://f")])]);
                         Some (JDict [])]) []))))
              f12_3 fm97_0892 _ _ "https://f" (JDict []) eq_refl eq_refl eq_refl _
              (or_intror (conj eq_refl eq_refl))).
    discriminate.
  - exact (proj2 (proj2 (proj2 (proj2 (empty_body_is_failure
              (scripted [Some (JDict [("properties", JDict [("forecast", JStr EmptyString)])])])
              []))))
              f12_3 fm97_0892 _ _ eq_refl eq_refl (or_intror eq_refl)).
Defined.

(** ** Payload shapes and exceptions *)

Lemma forecast_url_read (body : json) (url : json) :
  bind_result (py_get body "properties" (JDict []))
    (fun properties => py_get properties "forecast" JNull) = Ok url ->
  forecast_url_of body = url.
Proof.
  destruct body as [|b|n|x|s|items|d]; simpl; try discriminate.
  destruct (dict_get "properties" d) as [props|]; simpl.
  - destruct props as [|b|n|x|s|items|p]; simpl; try discriminate.
    destruct (dict_get "forecast" p); intros H; now injection H.
  - intros H; now injection H.
Qed.

Lemma format_alert_record (feature : json) :
  alert_record feature = true ->
  format_alert feature = Ok (alert_block (properties_of feature)).
Proof.
  destruct feature as [| | | | |items|d]; simpl; try discriminate.
  unfold member_ok. destruct (dict_get "properties" d) as [v|] eqn:E.
  - destruct v; simpl; try discriminate. intros _. now apply format_alert_dict.
  - intros _. now apply format_alert_bare.
Qed.

Lemma period_text_record (period : json) :
  is_dict period = true -> period_text period = Ok (period_block (members_of period)).
Proof. destruct period; simpl; try discriminate. intros _. apply period_text_dict. Qed.

Lemma map_result_forallb {A B : Type} (f : A -> result B) (g : A -> B) (ok : A -> bool)
    (l : list A) :
  (forall a, ok a = true -> f a = Ok (g a)) ->
  forallb ok l = true -> map_result f l = Ok (map g l).
Proof.
  intros Hok. induction l as [|a l IH]; simpl; [reflexivity|].
  rewrite andb_true_iff. intros [Ha Hl]. now rewrite (Hok a Ha), (IH Hl).
Qed.

Lemma code_points_nonempty (c : ascii) (s : string) : code_points (String c s) <> [].
Proof.
  simpl. destruct (code_points s); [discriminate|].
  destruct (starts_with_continuation s); discriminate.
Qed.

Lemma walk_ok_iff (f : json -> result string) (ok : json -> bool) (v : json) :
  (forall a, ok a = true <-> exists b, f a = Ok b) ->
  (forall s, ok (JStr s) = false) ->
  truthy v = true ->
  (list_of ok v = true <-> exists bs, bind_result (py_iter v) (map_result f) = Ok bs).
Proof.
  intros Hok Hstr Hv. unfold list_of. rewrite Hv. simpl negb. rewrite orb_false_l.
  assert (Hno : forall g b, f (JStr g) = Ok b -> False).
  { intros g b E. assert (Hk : ok (JStr g) = true) by (apply Hok; now exists b).
    rewrite Hstr in Hk. discriminate Hk. }
  destruct v as [|b|n|x|s|items|d]; simpl;
    try (split; [discriminate | intros [? H]; discriminate H]).
  - (* a string: its first character is tried *)
    destruct s as [|c s]; [discriminate Hv|].
    split; [discriminate|]. intros [bs H].
    destruct (code_points (String c s)) as [|g gs] eqn:E;
      [now elim (code_points_nonempty c s)|].
    simpl in H. destruct (f (JStr g)) as [b|e] eqn:Eg; [|discriminate H].
    exfalso. exact (Hno g b Eg).
  - apply map_result_ok_iff. exact Hok.
  - (* a dict: its first key is tried *)
    destruct d as [|[k w] d]; [discriminate Hv|].
    split; [discriminate|]. intros [bs H]. simpl in H.
    destruct (f (JStr k)) as [b|e] eqn:Ek; [|discriminate H].
    exfalso. exact (Hno k b Ek).
Qed.

Lemma alerts_walk (v : json) :
  truthy v = true ->
  (list_of alert_record v = true
   <-> exists bs, bind_result (py_iter v) (map_result format_alert) = Ok bs).
Proof. apply walk_ok_iff; [apply format_alert_ok_iff | reflexivity]. Qed.

Lemma periods_walk (v : json) :
  truthy v = true ->
  (list_of is_dict v = true
   <-> exists bs, bind_result (py_iter v) (map_result period_text) = Ok bs).
Proof. apply walk_ok_iff; [apply period_text_ok_iff | reflexivity]. Qed.

Lemma list_of_falsy (ok : json -> bool) (v : json) : truthy v = false -> list_of ok v = true.
Proof. intros H. unfold list_of. now rewrite H. Qed.

Lemma get_alerts_ok_iff (http_get : upstream) (state : string) (log : list string) :
  alerts_shape (response http_get log (alerts_url state)) = true
  <-> exists text, fst (get_alerts http_get state log) = Ok text.
Proof.
  rewrite get_alerts_steps. cbv zeta. unfold alerts_shape.
  destruct (truthy (response http_get log (alerts_url state))) eqn:Hb; simpl negb; cbv iota.
  - rewrite orb_false_l.
    destruct (response http_get log (alerts_url state)) as [|b|n|x|s|items|d]; simpl;
      try (split; [discriminate | intros [? H]; discriminate H]).
    unfold member_ok.
    destruct (dict_get "features" d) as [v|]; [|split; [now eexists | reflexivity]].
    destruct (truthy v) eqn:Hv; simpl negb; cbv iota.
    + rewrite (alerts_walk v Hv).
      destruct (bind_result _ _) as [bs|e]; simpl.
      * split; [now eexists | intros _; now exists bs].
      * split; [intros [? H]; discriminate H | intros [? H]; discriminate H].
    + rewrite (list_of_falsy _ v Hv). split; [now eexists | reflexivity].
  - simpl. split; [now eexists | reflexivity].
Qed.

Lemma periods_ok_iff (body : json) (render : list string -> string) (log : list string) :
  truthy body = true ->
  (periods_shape body = true
   <-> exists text,
         fst (match bind_result (py_get body "properties" (JDict []))
                      (fun properties => py_get properties "periods" (JList [])) with
              | Raise e => (Raise e, log)
              | Ok periods =>
                  if negb (truthy periods)
                  then (Ok "No forecast periods available", log)
                  else
                    match bind_result (py_iter periods) (map_result period_text) with
                    | Raise e => (Raise e, log)
                    | Ok blocks => (Ok (render blocks), log)
                    end
              end) = Ok text).
Proof.
  intros Hb. unfold periods_shape. rewrite Hb. simpl negb. rewrite orb_false_l.
  destruct body as [|b|n|x|s|items|d]; simpl;
    try (split; [discriminate | intros [? H]; discriminate H]).
  destruct (dict_get "properties" d) as [props|]; simpl;
    [|split; [now eexists | reflexivity]].
  destruct props as [|b|n|x|s|items|p]; simpl;
    try (split; [discriminate | intros [? H]; discriminate H]).
  unfold member_ok.
  destruct (dict_get "periods" p) as [v|]; [|split; [now eexists | reflexivity]].
  destruct (truthy v) eqn:Hv; simpl negb; cbv iota.
  - rewrite (periods_walk v Hv).
    destruct (bind_result _ _) as [bs|e]; simpl.
    + split; [now eexists | intros _; now exists bs].
    + split; [intros [? H]; discriminate H | intros [? H]; discriminate H].
  - rewrite (list_of_falsy _ v Hv). split; [now eexists | reflexivity].
Qed.

Lemma get_forecast_ok_iff (http_get : upstream) (latitude longitude : float)
    (log : list string) :
  let first := points_url latitude longitude in
  points_shape (second_body http_get log first) (response http_get log first) = true
  <-> exists text, fst (get_forecast http_get latitude longitude log) = Ok text.
Proof.
  cbv zeta. rewrite get_forecast_steps. cbv zeta. unfold points_shape.
  remember (points_url latitude longitude) as first eqn:Efirst. clear Efirst.
  destruct (truthy (response http_get log first)) eqn:Hb; simpl negb; cbv iota.
  - rewrite orb_false_l.
    destruct (response http_get log first) as [|b|n|x|s|items|d]; simpl;
      try (split; [discriminate | intros [? H]; discriminate H]).
    destruct (dict_get "properties" d) as [props|]; simpl;
      [|split; [now eexists | reflexivity]].
    destruct props as [|b|n|x|s|items|p]; simpl;
      try (split; [discriminate | intros [? H]; discriminate H]).
    unfold member_ok.
    destruct (dict_get "forecast" p) as [url|]; [|split; [now eexists | reflexivity]].
    destruct (truthy url) eqn:Hu; simpl negb; cbv iota;
      [|split; [now eexists | reflexivity]].
    rewrite orb_false_l.
    destruct (truthy (second_body http_get log first url)) eqn:H2; simpl negb; cbv iota.
    + exact (periods_ok_iff _
               (fun blocks =>
                  "Forecast for " ++ float_str latitude ++ ", " ++ float_str longitude ++
                  ":" ++ nl ++ nl ++ join nl blocks) (second_log log first url) H2).
    + unfold periods_shape. rewrite H2. simpl. split; [now eexists | reflexivity].
  - simpl. split; [now eexists | reflexivity].
Qed.

(** C8, as the code has it: each tool returns a string exactly when the
    payload has the shape it walks through: [get_alerts] when the body is
    empty (falsy), or a JSON object whose features are absent, empty, or a
    list of JSON objects whose properties are absent or a JSON object;
    [get_forecast] when each of its two bodies is empty, or a JSON object
    whose properties are absent or a JSON object, the periods absent,
    empty, or a list of JSON objects.  On such payloads every block is
    built from the members that are there, an absent member giving its
    placeholder: a feature with no properties and a period with no member
    give the blocks made of placeholders alone.  The three fetch failure
    messages come from a failed or empty fetch only. *)
Theorem tools_return_on_shaped_payloads (http_get : upstream) (log : list string) :
  (forall state,
     alerts_shape (response http_get log (alerts_url state)) = true
     <-> exists text, fst (get_alerts http_get state log) = Ok text)
  /\ (forall latitude longitude,
        let first := points_url latitude longitude in
        points_shape (second_body http_get log first) (response http_get log first) = true
        <-> exists text, fst (get_forecast http_get latitude longitude log) = Ok text)
  /\ (forall state d features,
        response http_get log (alerts_url state) = JDict d ->
        dict_get "features" d = Some (JList features) -> features <> [] ->
        forallb alert_record features = true ->
        fst (get_alerts http_get state log)
        = Ok ("Active alerts for " ++ upper state ++ ":" ++ nl ++ nl ++
              join nl (map (fun feature => alert_block (properties_of feature)) features)))
  /\ (forall latitude longitude d p u d2 p2 periods,
        let first := points_url latitude longitude in
        response http_get log first = JDict d ->
        dict_get "properties" d = Some (JDict p) ->
        dict_get "forecast" p = Some (JStr u) -> u <> EmptyString ->
        response http_get (log ++ [first]) u = JDict d2 ->
        dict_get "properties" d2 = Some (JDict p2) ->
        dict_get "periods" p2 = Some (JList periods) -> periods <> [] ->
        forallb is_dict periods = true ->
        fst (get_forecast http_get latitude longitude log)
        = Ok ("Forecast for " ++ float_str latitude ++ ", " ++ float_str longitude ++
              ":" ++ nl ++ nl ++
              join nl (map (fun period => period_block (members_of period)) periods)))
  /\ ((forall entries key default,
         dict_get key entries = None -> shown entries key default = default)
      /\ alert_block []
         = "Event: Unknown" ++ nl ++ "Area: Unknown" ++ nl ++ "Severity: Unknown" ++ nl ++
           "Status: Unknown" ++ nl ++ "Headline: No headline" ++ nl ++ "---"
      /\ period_block []
         = "Unknown:" ++ nl ++ "Temperature: Unknown°F" ++ nl ++ "Wind: Unknown " ++ nl ++
           "No forecast available" ++ nl ++ "---")
  /\ (forall state,
        fst (get_alerts http_get state log) = Ok "Failed to retrieve alerts data" ->
        truthy (response http_get log (alerts_url state)) = false)
  /\ (forall latitude longitude,
        fst (get_forecast http_get latitude longitude log)
        = Ok (grid_failure latitude longitude) ->
        truthy (response http_get log (points_url latitude longitude)) = false)
  /\ (forall latitude longitude,
        let first := points_url latitude longitude in
        fst (get_forecast http_get latitude longitude log)
        = Ok "Failed to retrieve forecast data" ->
        truthy (second_body http_get log first
                  (forecast_url_of (response http_get log first))) = false).
Proof.
  split; [intros; apply get_alerts_ok_iff|].
  split; [intros; apply get_forecast_ok_iff|].
  split; [|split; [|split; [|split; [|split]]]].
  - intros state d features Hb Hf Hne Hrec. rewrite get_alerts_steps. cbv zeta.
    rewrite Hb. rewrite (dict_truthy d (dict_get_nonempty _ _ _ Hf)). simpl. rewrite Hf.
    rewrite (list_truthy features Hne). simpl.
    rewrite (map_result_forallb format_alert _ alert_record features
               format_alert_record Hrec).
    reflexivity.
  - intros latitude longitude d p u d2 p2 periods first Hb Hp Hu Hne H2 Hp2 Hps Hnn Hrec.
    subst first. rewrite get_forecast_steps. cbv zeta.
    remember (points_url latitude longitude) as first eqn:Ef. clear Ef.
    rewrite Hb. rewrite (dict_truthy d (dict_get_nonempty _ _ _ Hp)). simpl.
    rewrite Hp; simpl. rewrite Hu. rewrite (str_truthy u Hne). simpl negb. cbv iota.
    unfold second_body, second_log. rewrite H2.
    rewrite (dict_truthy d2 (dict_get_nonempty _ _ _ Hp2)). simpl.
    rewrite Hp2; simpl. rewrite Hps. rewrite (list_truthy periods Hnn). simpl.
    rewrite (map_result_forallb period_text _ is_dict periods period_text_record Hrec).
    reflexivity.
  - split; [|split; reflexivity].
    intros entries key default H. unfold shown. now rewrite H.
  - intros state. rewrite get_alerts_steps. cbv zeta.
    destruct (truthy (response http_get log (alerts_url state))); [|reflexivity].
    simpl negb. cbv iota.
    destruct (py_get _ _ _) as [features|e]; [|intros H; discriminate H].
    destruct (negb (truthy features)); [intros H; discriminate H|].
    destruct (bind_result _ _) as [blocks|e]; intros H; discriminate H.
  - intros latitude longitude. rewrite get_forecast_steps. cbv zeta.
    destruct (truthy (response http_get log (points_url latitude longitude)));
      [|reflexivity].
    simpl negb. cbv iota. unfold grid_failure.
    destruct (bind_result _ _) as [url|e]; [|intros H; discriminate H].
    destruct (negb (truthy url)); [intros H; discriminate H|].
    destruct (negb (truthy _)); [intros H; discriminate H|].
    destruct (bind_result _ _) as [periods|e]; [|intros H; discriminate H].
    destruct (negb (truthy periods)); [intros H; discriminate H|].
    destruct (bind_result _ _) as [blocks|e]; intros H; discriminate H.
  - intros latitude longitude first. subst first. rewrite get_forecast_steps. cbv zeta.
    remember (points_url latitude longitude) as first eqn:Ef. clear Ef.
    unfold grid_failure.
    destruct (truthy (response http_get log first)); simpl negb; cbv iota;
      [|intros H; discriminate H].
    destruct (bind_result _ _) as [url|e] eqn:Eu; [|intros H; discriminate H].
    apply forecast_url_read in Eu. rewrite Eu.
    destruct (negb (truthy url)); [intros H; discriminate H|].
    destruct (truthy (second_body http_get log first url)); simpl negb; cbv iota;
      [|reflexivity].
    destruct (bind_result _ _) as [periods|e]; [|intros H; discriminate H].
    destruct (negb (truthy periods)); [intros H; discriminate H|].
    destruct (bind_result _ _) as [blocks|e]; intros H; discriminate H.
Qed.

(** Records with every field absent, behind both tools: the texts are made
    of the placeholders. *)
Lemma tools_return_on_shaped_payloads_witness :
  (exists text,
     fst (run (get_alerts
                 (scripted [Some (JDict [("features",
                    JList [JDict []; JDict [("properties", JDict [])]])])]) "ca"))
     = Ok text)
  /\ fst (run (get_alerts
                 (scripted [Some (JDict [("features",
                    JList [JDict []; JDict [("properties", JDict [])]])])]) "ca"))
     = Ok ("Active alerts for CA:" ++ nl ++ nl ++
           "Event: Unknown" ++ nl ++ "Area: Unknown" ++ nl ++ "Severity: Unknown" ++ nl ++
           "Status: Unknown" ++ nl ++ "Headline: No headline" ++ nl ++ "---" ++ nl ++
           "Event: Unknown" ++ nl ++ "Area: Unknown" ++ nl ++ "Severity: Unknown" ++ nl ++
           "Status: Unknown" ++ nl ++ "Headline: No headline" ++ nl ++ "---")
  /\ fst (run (get_forecast
                 (scripted
                    [Some (JDict [("properties", JDict [("forecast", JStr "https://f")])]);
                     Some (JDict [("properties", JDict [("periods", JList [JDict []])])])])
                 f12_3 fm97_0892))
     = Ok ("Forecast for 12.3, -97.0892:" ++ nl ++ nl ++
           "Unknown:" ++ nl ++ "Temperature: Unknown°F" ++ nl ++ "Wind: Unknown " ++ nl ++
           "No forecast available" ++ nl ++ "---").
Proof.
  split; [|split].
  - exact (proj1 (proj1 (tools_return_on_shaped_payloads
             (scripted [Some (JDict [("features",
                JList [JDict []; JDict [("properties", JDict [])]])])]) []) "ca") eq_refl).
  - etransitivity.
    + refine (proj1 (proj2 (proj2 (tools_return_on_shaped_payloads
                (scripted [Some (JDict [("features",
                   JList [JDict []; JDict [("properties", JDict [])]])])]) [])))
                "ca" _ _ eq_refl eq_refl _ eq_refl).
      discriminate.
    + vm_compute. reflexivity.
  - etransitivity.
    + refine (proj1 (proj2 (proj2 (proj2 (tools_return_on_shaped_payloads
                (scripted
                   [Some (JDict [("properties", JDict [("forecast", JStr "https://f")])]);
                    Some (JDict [("properties", JDict [("periods", JList [JDict []])])])])
                []))))
                f12_3 fm97_0892 _ _ "https://f" _ _ _
                eq_refl eq_refl eq_refl _ eq_refl eq_refl eq_refl _ eq_refl);
        discriminate.
    + vm_compute. reflexivity.
Defined.

(** C8 as stated fails: a grid point body whose [properties] member is the
    JSON null makes [get_forecast] raise AttributeError, and a body whose
    [features] member is a number makes [get_alerts] raise TypeError; in
    both an exception leaves the tool. *)
Lemma tools_raise_on_other_payloads :
  run (get_forecast (scripted [Some (JDict [("properties", JNull)])]) f12_3 fm97_0892)
    = (Raise AttributeError, ["https://api.weather.gov/points/12.3000,-97.0892"])
  /\ run (get_alerts (scripted [Some (JDict [("features", JInt 5)])]) "ca")
    = (Raise TypeError, ["https://api.weather.gov/alerts?area=CA"]).
Proof. split; vm_compute; reflexivity. Qed.

(** ** The grid point URL *)

Lemma uint_digits (d : Decimal.uint) :
  all_chars is_digit (NilEmpty.string_of_uint d) = true.
Proof. induction d; simpl; try assumption; reflexivity. Qed.

Lemma dec_digits (n : Z) : all_chars is_digit (dec n) = true /\ dec n <> EmptyString.
Proof.
  unfold dec, NilZero.string_of_uint.
  destruct (N.to_uint (Z.to_N n)) eqn:E;
    try (split; [exact (uint_digits _) | simpl; discriminate]).
  split; [reflexivity | discriminate].
Qed.

Lemma digit_char_is_digit (d : Z) : 0 <= d < 10 -> is_digit (digit_char d) = true.
Proof.
  intros H. unfold digit_char.
  assert (Hn : (Z.to_nat d < 10)%nat) by lia.
  destruct (Z.to_nat d) as [|[|[|[|[|[|[|[|[|[|k]]]]]]]]]]; try reflexivity. lia.
Qed.

Lemma frac4_digits (q : Z) :
  String.length (frac4 q) = 4%nat /\ all_chars is_digit (frac4 q) = true.
Proof.
  split; [reflexivity|]. unfold frac4. cbn [all_chars].
  rewrite !digit_char_is_digit by (apply Z.mod_pos_bound; lia). reflexivity.
Qed.

Lemma format_4f_four_decimals (x : float) :
  is_finite x = true -> four_decimals (format_4f x).
Proof.
  destruct x as [s|s| |s m e]; simpl; try discriminate; intros _.
  - exists (sign_str s), "0", "0000". repeat split; try discriminate.
    destruct s; [now right | now left].
  - exists (sign_str s), (dec (scaled4 m e / 10000)), (frac4 (scaled4 m e)).
    destruct (dec_digits (scaled4 m e / 10000)) as [Hd Hn].
    destruct (frac4_digits (scaled4 m e)) as [Hl Hf].
    repeat split; try assumption.
    destruct s; [now right | now left].
Qed.

Lemma contains_char_app (c : ascii) (a b : string) :
  contains_char c (a ++ b) = contains_char c a || contains_char c b.
Proof.
  induction a as [|x a IH]; simpl; [reflexivity|]. rewrite IH. now rewrite orb_assoc.
Qed.

Lemma four_decimals_has_point (s : string) :
  four_decimals s -> contains_char "." s = true.
Proof.
  intros (sign & whole & frac & -> & _).
  rewrite !contains_char_app. simpl. rewrite !orb_true_r. reflexivity.
Qed.

Lemma get_forecast_first_request (http_get : upstream) (latitude longitude : float)
    (log : list string) :
  exists rest,
    snd (get_forecast http_get latitude longitude log)
    = (log ++ points_url latitude longitude :: rest)%list.
Proof.
  rewrite get_forecast_steps. cbv zeta.
  assert (H2 : forall url,
             second_log log (points_url latitude longitude) url
             = (log ++ points_url latitude longitude ::
                  match url with JStr u => [u] | _ => [] end)%list).
  { intros url. destruct url; simpl; try reflexivity. now rewrite <- app_assoc. }
  destruct (negb (truthy _)); [now exists []|].
  destruct (bind_result _ _) as [url|e]; [|now exists []].
  destruct (negb (truthy url)); [now exists []|].
  destruct (negb (truthy _)); [eexists; apply H2|].
  destruct (bind_result _ _) as [periods|e]; [|eexists; apply H2].
  destruct (negb (truthy periods)); [eexists; apply H2|].
  destruct (bind_result _ _); eexists; apply H2.
Qed.

(** C6, as the code has it: for every finite latitude and longitude, the
    first request of [get_forecast] is for the points URL with both
    coordinates in the [.4f] presentation: an optional minus sign, the
    digits of the whole part, a point and exactly four digits; 12.3 is
    shown as 12.3000. *)
Theorem points_url_four_decimals (http_get : upstream) (latitude longitude : float)
    (log : list string) :
  is_finite latitude = true -> is_finite longitude = true ->
  four_decimals (format_4f latitude) /\ four_decimals (format_4f longitude)
  /\ (exists rest,
        snd (get_forecast http_get latitude longitude log)
        = (log ++ (NWS_API_BASE ++ "/points/" ++ format_4f latitude ++ "," ++
                   format_4f longitude)%string :: rest)%list)
  /\ format_4f f12_3 = "12.3000".
Proof.
  intros Hlat Hlon.
  split; [now apply format_4f_four_decimals|].
  split; [now apply format_4f_four_decimals|].
  split; [apply get_forecast_first_request | vm_compute; reflexivity].
Qed.

(** The coordinates 12.3 and -97.0892. *)
Lemma points_url_four_decimals_witness :
  four_decimals (format_4f f12_3) /\ four_decimals (format_4f fm97_0892)
  /\ (exists rest,
        snd (get_forecast (scripted []) f12_3 fm97_0892 [])
        = ([] ++ (NWS_API_BASE ++ "/points/" ++ format_4f f12_3 ++ "," ++
                  format_4f fm97_0892)%string :: rest)%list)
  /\ format_4f f12_3 = "12.3000".
Proof. exact (points_url_four_decimals (scripted []) f12_3 fm97_0892 [] eq_refl eq_refl). Defined.

(** C6 as stated fails for the float that is not a number: its [.4f]
    presentation is the word nan, with no decimal at all, and that is what
    the points URL holds. *)
Lemma points_url_of_nan :
  format_4f nan = "nan"
  /\ ~ four_decimals (format_4f nan)
  /\ snd (run (get_forecast (scripted []) nan nan))
     = ["https://api.weather.gov/points/nan,nan"].
Proof.
  split; [reflexivity|]. split; [|reflexivity].
  intros H. apply four_decimals_has_point in H. discriminate H.
Qed.

(** * Further properties of the code *)

(** ** What the tools ask of the upstream *)

(** X1: [get_alerts] consults the upstream once, about the alerts URL: two
    upstreams that answer this one request alike give the same result and
    the same requests. *)
Theorem get_alerts_one_answer (http1 http2 : upstream) (state : string)
    (log : list string) :
  http1 log headers (alerts_url state) = http2 log headers (alerts_url state) ->
  get_alerts http1 state log = get_alerts http2 state log.
Proof.
  intros H. rewrite !get_alerts_steps. cbv zeta. unfold response. rewrite H. reflexivity.
Qed.

(** Two upstreams that differ on every other URL. *)
Lemma get_alerts_one_answer_witness :
  get_alerts
    (serving [("https://api.weather.gov/alerts?area=TX", JDict [("features", JList [])]);
              ("https://api.weather.gov/alerts?area=CA", JDict [])]) "tx" []
  = get_alerts
      (serving [("https://api.weather.gov/alerts?area=TX", JDict [("features", JList [])])])
      "tx" [].
Proof. apply get_alerts_one_answer. reflexivity. Defined.

Lemma second_log_later (log : list string) (first : string) (body url : json) :
  forecast_url_of body = url -> truthy url = true ->
  second_log log first url = (log ++ first :: later_requests body)%list.
Proof.
  intros E Hu. unfold later_requests. rewrite E.
  destruct url as [|b|n|x|s|items|d]; simpl; try (now rewrite <- app_assoc);
    try reflexivity.
  destruct s; [discriminate Hu|]. now rewrite <- app_assoc.
Qed.

Lemma forecast_url_unread (body : json) (e : exn) :
  bind_result (py_get body "properties" (JDict []))
    (fun properties => py_get properties "forecast" JNull) = Raise e ->
  forecast_url_of body = JNull.
Proof.
  destruct body as [|b|n|x|s|items|d]; simpl; try reflexivity.
  destruct (dict_get "properties" d) as [props|]; simpl; [|discriminate].
  destruct props as [|b|n|x|s|items|p]; simpl; try reflexivity.
  destruct (dict_get "forecast" p); discriminate.
Qed.

Lemma forecast_url_falsy_body (body : json) :
  truthy body = false -> forecast_url_of body = JNull.
Proof.
  destruct body as [|b|n|x|s|items|d]; simpl; try reflexivity.
  destruct d; [reflexivity | discriminate].
Qed.

Lemma later_requests_falsy (body : json) :
  truthy (forecast_url_of body) = false -> later_requests body = [].
Proof.
  unfold later_requests. destruct (forecast_url_of body) as [|b|n|x|s|items|d];
    try reflexivity.
  destruct s; [reflexivity | discriminate].
Qed.

(** X2: [get_forecast] passes one URL or two to the client, whatever the
    outcome: first the points URL, and a second one exactly when the grid
    point body gives a non-empty string as [properties.forecast]: that
    very string, as the upstream wrote it and unchecked, whether or not
    the client can send a request for it.  A forecast member that is not
    a string adds no URL. *)
Theorem get_forecast_requests (http_get : upstream) (latitude longitude : float)
    (log : list string) :
  let first := points_url latitude longitude in
  snd (get_forecast http_get latitude longitude log)
  = (log ++ first :: later_requests (response http_get log first))%list.
Proof.
  cbv zeta. rewrite get_forecast_steps. cbv zeta.
  remember (points_url latitude longitude) as first eqn:Ef. clear Ef.
  destruct (truthy (response http_get log first)) eqn:Hb; simpl negb; cbv iota.
  - destruct (bind_result _ _) as [url|e] eqn:Eu.
    + apply forecast_url_read in Eu.
      destruct (truthy url) eqn:Hu; simpl negb; cbv iota.
      * pose proof (second_log_later log first _ url Eu Hu) as Hl.
        destruct (negb (truthy _)); [exact Hl|].
        destruct (bind_result _ _) as [periods|e]; [|exact Hl].
        destruct (negb (truthy periods)); [exact Hl|].
        destruct (bind_result _ _); exact Hl.
      * simpl. rewrite later_requests_falsy by (now rewrite Eu). reflexivity.
    + apply forecast_url_unread in Eu. simpl. unfold later_requests. rewrite Eu.
      reflexivity.
  - simpl. unfold later_requests. rewrite (forecast_url_falsy_body _ Hb). reflexivity.
Qed.

(** X3: [get_forecast] consults the upstream about the points URL and about
    the forecast URL of the grid point body, and about nothing else: two
    upstreams that answer these alike give the same result and requests. *)
Theorem get_forecast_two_answers (http1 http2 : upstream) (latitude longitude : float)
    (log : list string) :
  let first := points_url latitude longitude in
  http1 log headers first = http2 log headers first ->
  (forall u, forecast_url_of (response http1 log first) = JStr u ->
             http1 (log ++ [first])%list headers u = http2 (log ++ [first])%list headers u) ->
  get_forecast http1 latitude longitude log = get_forecast http2 latitude longitude log.
Proof.
  cbv zeta. intros H1 H2. rewrite !get_forecast_steps. cbv zeta.
  remember (points_url latitude longitude) as first eqn:Ef. clear Ef.
  assert (Hr : response http2 log first = response http1 log first)
    by (unfold response; now rewrite H1).
  rewrite Hr.
  destruct (negb (truthy (response http1 log first))); [reflexivity|].
  destruct (bind_result _ _) as [url|e] eqn:Eu; [|reflexivity].
  apply forecast_url_read in Eu.
  assert (Hs : second_body http2 log first url = second_body http1 log first url).
  { destruct url; try reflexivity. simpl. unfold response. now rewrite (H2 _ Eu). }
  rewrite Hs. reflexivity.
Qed.

(** Two upstreams that agree on the two URLs asked and on no other. *)
Lemma get_forecast_two_answers_witness :
  get_forecast
    (serving [("https://api.weather.gov/points/12.3000,-97.0892",
               JDict [("properties", JDict [("forecast", JStr "https://f")])]);
              ("https://f", JDict [("properties", JDict [("periods", JList [JDict []])])]);
              ("https://g", JDict [])]) f12_3 fm97_0892 []
  = get_forecast
      (serving [("https://api.weather.gov/points/12.3000,-97.0892",
                 JDict [("properties", JDict [("forecast", JStr "https://f")])]);
                ("https://f", JDict [("properties", JDict [("periods", JList [JDict []])])]);
                ("https://g", JNull)]) f12_3 fm97_0892 [].
Proof.
  apply get_forecast_two_answers; [reflexivity|].
  intros u H. vm_compute in H. injection H as <-. reflexivity.
Defined.

(** ** Reading the outcome back from the text *)

(** X4: the fixed messages of [get_forecast] tell the steps apart: the forecast
    URL message is returned only after a grid point body that is not empty
    and gives no usable forecast URL, with one request made; the forecast
    data message only after a second body that is empty or missing; the
    no-periods message only after a second body that is not empty. *)
Theorem get_forecast_message_origin (http_get : upstream) (latitude longitude : float)
    (log : list string) :
  let first := points_url latitude longitude in
  let body := response http_get log first in
  let body2 := second_body http_get log first (forecast_url_of body) in
  let text := fst (get_forecast http_get latitude longitude log) in
  (text = Ok "Failed to get forecast URL from grid point data" ->
     truthy body = true /\ truthy (forecast_url_of body) = false /\
     snd (get_forecast http_get latitude longitude log) = (log ++ [first])%list)
  /\ (text = Ok "Failed to retrieve forecast data" ->
        truthy body = true /\ truthy (forecast_url_of body) = true /\
        truthy body2 = false)
  /\ (text = Ok "No forecast periods available" ->
        truthy body = true /\ truthy (forecast_url_of body) = true /\
        truthy body2 = true).
Proof.
  cbv zeta. rewrite get_forecast_steps. cbv zeta.
  remember (points_url latitude longitude) as first eqn:Ef. clear Ef.
  unfold grid_failure.
  destruct (truthy (response http_get log first)) eqn:Hb; simpl negb; cbv iota;
    [|(split; [|split]); intros H; discriminate H].
  destruct (bind_result _ _) as [url|e] eqn:Eu;
    [|(split; [|split]); intros H; discriminate H].
  apply forecast_url_read in Eu. rewrite Eu.
  destruct (truthy url) eqn:Hu; simpl negb; cbv iota.
  - destruct (truthy (second_body http_get log first url)) eqn:H2; simpl negb; cbv iota;
      [|(split; [|split]); intros H; try discriminate H; now repeat split].
    destruct (bind_result _ _) as [periods|e];
      [|(split; [|split]); intros H; discriminate H].
    destruct (negb (truthy periods));
      [(split; [|split]); intros H; try discriminate H; now repeat split|].
    destruct (bind_result _ _); (split; [|split]); intros H; discriminate H.
  - (split; [|split]); intros H; try discriminate H.
    split; [reflexivity|]. split; reflexivity.
Qed.

(** A grid point body with an empty forecast URL; the text read back. *)
Lemma get_forecast_message_origin_witness :
  let http_get :=
    scripted [Some (JDict [("properties", JDict [("forecast", JStr EmptyString)])])] in
  truthy (response http_get [] (points_url f12_3 fm97_0892)) = true
  /\ truthy (forecast_url_of (response http_get [] (points_url f12_3 fm97_0892))) = false
  /\ snd (get_forecast http_get f12_3 fm97_0892 []) = ([] ++ [points_url f12_3 fm97_0892])%list.
Proof.
  cbv zeta.
  apply (proj1 (get_forecast_message_origin
                  (scripted [Some (JDict [("properties",
                                            JDict [("forecast", JStr EmptyString)])])])
                  f12_3 fm97_0892 [])).
  vm_compute. reflexivity.
Defined.

(** X5: the no-active-alerts message of [get_alerts] is returned only for a
    body that is not empty and whose features are absent or empty
    (falsy), and the header only for features that are not empty. *)
Theorem get_alerts_message_origin (http_get : upstream) (state : string)
    (log : list string) :
  let body := response http_get log (alerts_url state) in
  let text := fst (get_alerts http_get state log) in
  (text = Ok ("No active alerts for " ++ upper state) ->
     truthy body = true /\
     exists features, py_get body "features" (JList []) = Ok features /\
                      truthy features = false)
  /\ (forall rest,
        text = Ok ("Active alerts for " ++ upper state ++ ":" ++ nl ++ nl ++ rest) ->
        truthy body = true /\
        exists features, py_get body "features" (JList []) = Ok features /\
                         truthy features = true).
Proof.
  cbv zeta. rewrite get_alerts_steps. cbv zeta.
  destruct (truthy (response http_get log (alerts_url state))) eqn:Hb; simpl negb; cbv iota;
    [|split; [|intros rest]; intros H; discriminate H].
  destruct (py_get _ _ _) as [features|e];
    [|split; [|intros rest]; intros H; discriminate H].
  destruct (truthy features) eqn:Hf; simpl negb; cbv iota.
  - destruct (bind_result _ _) as [blocks|e]; (split; [|intros rest]); intros H;
      try discriminate H.
    split; [reflexivity|]. now exists features.
  - split; [|intros rest]; intros H; try discriminate H.
    split; [reflexivity|]. now exists features.
Qed.

(** A body with an empty feature list; the text read back. *)
Lemma get_alerts_message_origin_witness :
  let http_get := scripted [Some (JDict [("features", JList [])])] in
  truthy (response http_get [] (alerts_url "ca")) = true /\
  exists features,
    py_get (response http_get [] (alerts_url "ca")) "features" (JList []) = Ok features /\
    truthy features = false.
Proof.
  cbv zeta.
  apply (proj1 (get_alerts_message_origin
                  (scripted [Some (JDict [("features", JList [])])]) "ca" [])).
  reflexivity.
Defined.

(** ** Payloads that raise *)

Lemma map_result_raises (f : json -> result string) (ok : json -> bool) (l : list json) :
  (forall a, ok a = true -> exists b, f a = Ok b) ->
  (forall a, ok a = false -> f a = Raise AttributeError) ->
  forallb ok l = false -> map_result f l = Raise AttributeError.
Proof.
  intros Hok Hbad. induction l as [|a l IH]; simpl; [discriminate|].
  destruct (ok a) eqn:Ea; simpl.
  - intros Hl. destruct (Hok a Ea) as [b ->]. simpl. now rewrite (IH Hl).
  - intros _. now rewrite (Hbad a Ea).
Qed.

(** X6: one malformed record loses the whole answer: when a single feature is
    not an alert record (not a JSON object, or its properties neither
    absent nor a JSON object), [get_alerts] raises AttributeError and
    returns no block at all, however many other features are well formed;
    and the same holds in [get_forecast] for a period that is not a JSON
    object. *)
Theorem one_bad_record_raises (http_get : upstream) (log : list string) :
  (forall state d features,
     response http_get log (alerts_url state) = JDict d ->
     dict_get "features" d = Some (JList features) ->
     forallb alert_record features = false ->
     get_alerts http_get state log
     = (Raise AttributeError, (log ++ [alerts_url state])%list))
  /\ (forall latitude longitude d p u d2 p2 periods,
        let first := points_url latitude longitude in
        response http_get log first = JDict d ->
        dict_get "properties" d = Some (JDict p) ->
        dict_get "forecast" p = Some (JStr u) -> u <> EmptyString ->
        response http_get (log ++ [first]) u = JDict d2 ->
        dict_get "properties" d2 = Some (JDict p2) ->
        dict_get "periods" p2 = Some (JList periods) ->
        forallb is_dict periods = false ->
        get_forecast http_get latitude longitude log
        = (Raise AttributeError, ((log ++ [first]) ++ [u])%list)).
Proof.
  split.
  - intros state d features Hb Hf Hbad. rewrite get_alerts_steps. cbv zeta. rewrite Hb.
    rewrite (dict_truthy d (dict_get_nonempty _ _ _ Hf)). simpl. rewrite Hf.
    assert (Hne : features <> []) by (intros ->; discriminate Hbad).
    rewrite (list_truthy _ Hne). simpl.
    rewrite (map_result_raises format_alert alert_record features); try assumption;
      [reflexivity | intros a Ha; now apply format_alert_ok_iff | apply format_alert_raises].
  - intros latitude longitude d p u d2 p2 periods first Hb Hp Hu Hne H2 Hp2 Hps Hbad.
    subst first. rewrite get_forecast_steps. cbv zeta.
    remember (points_url latitude longitude) as first eqn:Ef. clear Ef.
    rewrite Hb. rewrite (dict_truthy d (dict_get_nonempty _ _ _ Hp)). simpl.
    rewrite Hp; simpl. rewrite Hu. rewrite (str_truthy u Hne). simpl negb. cbv iota.
    unfold second_body, second_log. rewrite H2.
    rewrite (dict_truthy d2 (dict_get_nonempty _ _ _ Hp2)). simpl.
    rewrite Hp2; simpl. rewrite Hps.
    assert (Hn : periods <> []) by (intros ->; discriminate Hbad).
    rewrite (list_truthy _ Hn). simpl.
    rewrite (map_result_raises period_text is_dict periods); try assumption;
      [reflexivity | intros a Ha; now apply period_text_ok_iff | apply period_text_raises].
Qed.

(** Two good features and a last one that is a string. *)
Lemma one_bad_record_raises_witness :
  run (get_alerts
         (scripted [Some (JDict [("features",
            JList [JDict []; JDict [("properties", JDict [])]; JStr "x"])])]) "ca")
  = (Raise AttributeError, ["https://api.weather.gov/alerts?area=CA"]).
Proof.
  exact (proj1 (one_bad_record_raises
           (scripted [Some (JDict [("features",
              JList [JDict []; JDict [("properties", JDict [])]; JStr "x"])])]) [])
           "ca" _ _ eq_refl eq_refl eq_refl).
Defined.

(** X7: a body that is not empty and not a JSON object (a non-empty array or
    string, true, a number other than zero) makes each tool raise
    AttributeError after its first request. *)
Theorem other_body_raises (http_get : upstream) (log : list string) :
  (forall state,
     let body := response http_get log (alerts_url state) in
     truthy body = true -> is_dict body = false ->
     get_alerts http_get state log
     = (Raise AttributeError, (log ++ [alerts_url state])%list))
  /\ (forall latitude longitude,
        let body := response http_get log (points_url latitude longitude) in
        truthy body = true -> is_dict body = false ->
        get_forecast http_get latitude longitude log
        = (Raise AttributeError, (log ++ [points_url latitude longitude])%list)).
Proof.
  split.
  - intros state body Ht Hd. subst body. rewrite get_alerts_steps. cbv zeta.
    rewrite Ht. simpl negb. cbv iota.
    destruct (response http_get log (alerts_url state)); try discriminate Hd; reflexivity.
  - intros latitude longitude body Ht Hd. subst body. rewrite get_forecast_steps. cbv zeta.
    rewrite Ht. simpl negb. cbv iota.
    destruct (response http_get log (points_url latitude longitude));
      try discriminate Hd; reflexivity.
Qed.

(** A body that is a JSON array with one alert in it. *)
Lemma other_body_raises_witness :
  run (get_alerts (scripted [Some (JList [JDict [("features", JList [])]])]) "ca")
  = (Raise AttributeError, ["https://api.weather.gov/alerts?area=CA"]).
Proof.
  exact (proj1 (other_body_raises
           (scripted [Some (JList [JDict [("features", JList [])]])]) [])
           "ca" eq_refl eq_refl).
Defined.

(** X8: features that are not a list: a number or a boolean cannot be run over
    and gives TypeError; a non-empty string or JSON object is run over
    (its characters, its keys), and the first of these, a string, gives
    AttributeError in [format_alert]. *)
Theorem features_not_a_list (http_get : upstream) (state : string) (log : list string)
    (d : list (string * json)) (features : json) :
  response http_get log (alerts_url state) = JDict d ->
  dict_get "features" d = Some features ->
  truthy features = true ->
  (is_number features = true ->
     get_alerts http_get state log = (Raise TypeError, (log ++ [alerts_url state])%list))
  /\ ((exists s, features = JStr s) \/ is_dict features = true ->
        get_alerts http_get state log
        = (Raise AttributeError, (log ++ [alerts_url state])%list)).
Proof.
  intros Hb Hf Ht. rewrite get_alerts_steps. cbv zeta. rewrite Hb.
  rewrite (dict_truthy d (dict_get_nonempty _ _ _ Hf)). simpl. rewrite Hf. rewrite Ht.
  simpl negb. cbv iota. split.
  - intros Hn. destruct features; try discriminate Hn; reflexivity.
  - intros [[s ->] | Hd].
    + destruct s as [|c s]; [discriminate Ht|].
      change (bind_result (py_iter (JStr (String c s))) (map_result format_alert))
        with (map_result format_alert (map JStr (code_points (String c s)))).
      destruct (code_points (String c s)) as [|g gs] eqn:E;
        [now elim (code_points_nonempty c s)|].
      reflexivity.
    + destruct features as [| | | | | |entries]; try discriminate Hd.
      destruct entries as [|[k v] entries]; [discriminate Ht|]. reflexivity.
Qed.

(** Features given as a JSON object keyed by an identifier. *)
Lemma features_not_a_list_witness :
  run (get_alerts
         (scripted [Some (JDict [("features", JDict [("a1", JDict [])])])]) "ca")
  = (Raise AttributeError, ["https://api.weather.gov/alerts?area=CA"]).
Proof.
  exact (proj2 (features_not_a_list
           (scripted [Some (JDict [("features", JDict [("a1", JDict [])])])]) "ca" []
           _ _ eq_refl eq_refl eq_refl) (or_intror eq_refl)).
Defined.

(** ** The coordinates in the URL *)

Lemma read_dec_dec (n : Z) : 0 <= n -> read_dec (dec n) = Some n.
Proof.
  intros Hn. unfold read_dec, dec.
  pose proof (DecimalN.Unsigned.of_to (Z.to_N n)) as E.
  destruct (N.to_uint (Z.to_N n)) eqn:Eu;
    try (rewrite NilZero.usu by discriminate; cbn [option_map];
         rewrite E, Z2N.id by assumption; reflexivity).
  simpl in *. f_equal. lia.
Qed.

Lemma div_half_even_near (n d : Z) :
  0 < d -> 2 * Z.abs (div_half_even n d * d - n) <= d.
Proof.
  intros Hd. unfold div_half_even.
  pose proof (Z.div_mod n d ltac:(lia)) as E.
  pose proof (Z.mod_pos_bound n d Hd) as B.
  destruct (2 * (n mod d) <? d) eqn:H1; [apply Z.ltb_lt in H1; nia|].
  apply Z.ltb_ge in H1.
  destruct (d <? 2 * (n mod d)) eqn:H2; [apply Z.ltb_lt in H2; nia|].
  apply Z.ltb_ge in H2.
  destruct (Z.even (n / d)); nia.
Qed.

Lemma div_half_even_nonneg (n d : Z) : 0 <= n -> 0 < d -> 0 <= div_half_even n d.
Proof.
  intros Hn Hd. unfold div_half_even.
  pose proof (Z.div_pos n d Hn Hd).
  destruct (_ <? _); [assumption|]. destruct (_ <? _); [lia|].
  destruct (Z.even _); lia.
Qed.

Lemma scaled4_nonneg (m : positive) (e : Z) : 0 <= scaled4 m e.
Proof.
  unfold scaled4. destruct (0 <=? e) eqn:He.
  - apply Z.leb_le in He. pose proof (Z.pow_nonneg 2 e ltac:(lia)). nia.
  - apply div_half_even_nonneg; [lia|]. apply Z.pow_pos_nonneg; [lia|].
    apply Z.leb_gt in He. lia.
Qed.

(** X9: the [.4f] text of a finite non-zero float is the nearest number with
    four decimals: its digits, of the whole part [whole] and of the four
    decimals, make the integer [whole * 10^4 + d1 d2 d3 d4], which equals
    m * 2^e * 10^4 when that is an integer (e >= 0) and lies within one
    half of it otherwise; so a coordinate in the points URL differs from
    the input by 0.00005 at most.  The sign is shown whenever the float
    has one, also when the digits are all zero. *)
Theorem format_4f_nearest (s : bool) (m : positive) (e : Z) :
  exists whole d1 d2 d3 d4,
    format_4f (S754_finite s m e)
    = sign_str s ++ dec whole ++ "." ++
      String (digit_char d1) (String (digit_char d2)
        (String (digit_char d3) (String (digit_char d4) EmptyString)))
    /\ read_dec (dec whole) = Some whole
    /\ 0 <= d1 <= 9 /\ 0 <= d2 <= 9 /\ 0 <= d3 <= 9 /\ 0 <= d4 <= 9
    /\ (0 <= e ->
          whole * 10000 + d1 * 1000 + d2 * 100 + d3 * 10 + d4
          = Z.pos m * 2 ^ e * 10000)
    /\ (e < 0 ->
          2 * Z.abs ((whole * 10000 + d1 * 1000 + d2 * 100 + d3 * 10 + d4) * 2 ^ (- e)
                     - Z.pos m * 10000)
          <= 2 ^ (- e)).
Proof.
  pose proof (scaled4_nonneg m e) as Hq.
  set (q := scaled4 m e) in *.
  exists (q / 10000), (q / 1000 mod 10), (q / 100 mod 10), (q / 10 mod 10), (q mod 10).
  assert (Hsum : q / 10000 * 10000 + q / 1000 mod 10 * 1000 + q / 100 mod 10 * 100 +
                 q / 10 mod 10 * 10 + q mod 10 = q).
  { pose proof (Z.div_mod q 10 ltac:(lia)).
    pose proof (Z.div_mod (q / 10) 10 ltac:(lia)).
    pose proof (Z.div_mod (q / 100) 10 ltac:(lia)).
    pose proof (Z.div_mod (q / 1000) 10 ltac:(lia)).
    assert (q / 100 = q / 10 / 10) by (rewrite Z.div_div by lia; reflexivity).
    assert (q / 1000 = q / 100 / 10) by (rewrite Z.div_div by lia; reflexivity).
    assert (q / 10000 = q / 1000 / 10) by (rewrite Z.div_div by lia; reflexivity).
    lia. }
  split; [reflexivity|].
  split; [apply read_dec_dec; apply Z.div_pos; lia|].
  repeat (split; [pose proof (Z.mod_pos_bound (q / 1000) 10 ltac:(lia));
                  pose proof (Z.mod_pos_bound (q / 100) 10 ltac:(lia));
                  pose proof (Z.mod_pos_bound (q / 10) 10 ltac:(lia));
                  pose proof (Z.mod_pos_bound q 10 ltac:(lia)); lia|]).
  rewrite Hsum. subst q. unfold scaled4. split; intros He.
  - apply Z.leb_le in He. rewrite He. reflexivity.
  - assert (H0 : (0 <=? e) = false) by (apply Z.leb_gt; lia). rewrite H0.
    apply div_half_even_near. apply Z.pow_pos_nonneg; lia.
Qed.

(** ** The region code *)

Lemma map_chars_ascii (s : string) :
  all_chars is_ascii s = true -> all_chars is_ascii (map_chars upper_char s) = true.
Proof.
  induction s as [|c s IH]; simpl; [reflexivity|].
  rewrite andb_true_iff. intros [Hc Hs]. now rewrite upper_char_ascii, Hc, IH.
Qed.

Lemma map_chars_idempotent (s : string) :
  map_chars upper_char (map_chars upper_char s) = map_chars upper_char s.
Proof.
  induction s as [|c s IH]; simpl; [reflexivity|]. now rewrite upper_char_idempotent, IH.
Qed.

(** X10: for a region code of ASCII characters, uppercasing is idempotent
    and keeps the length, so [get_alerts] called with the code already
    uppercased makes the same request and returns the same text as with
    the code as typed. *)
Theorem get_alerts_of_uppercased (http_get : upstream) (state : string)
    (log : list string) :
  all_chars is_ascii state = true ->
  upper (upper state) = upper state
  /\ String.length (upper state) = String.length state
  /\ get_alerts http_get (upper state) log = get_alerts http_get state log.
Proof.
  intros Hascii.
  assert (H : upper (upper state) = upper state).
  { rewrite (upper_ascii state Hascii).
    rewrite (upper_ascii _ (map_chars_ascii state Hascii)).
    apply map_chars_idempotent. }
  split; [exact H|]. split.
  - rewrite (upper_ascii state Hascii). apply length_map_chars.
  - apply get_alerts_by_upper. exact H.
Qed.

(** The code ny. *)
Lemma get_alerts_of_uppercased_witness :
  upper (upper "ny") = upper "ny"
  /\ String.length (upper "ny") = String.length "ny"
  /\ get_alerts (scripted [None]) (upper "ny") [] = get_alerts (scripted [None]) "ny" [].
Proof. exact (get_alerts_of_uppercased (scripted [None]) "ny" [] eq_refl). Defined.

(** ** Members that are null, and members the tools do not know *)

(** X11: the placeholders stand for absent members only: a member that is
    present with the JSON null is shown as the text None.  An alert whose
    headline is null reads Headline: None, and a period whose
    temperatureUnit is null reads None after the degree sign. *)
Theorem null_member_is_shown (entries : list (string * json)) (key default : string) :
  dict_get key entries = Some JNull ->
  shown entries key default = "None"
  /\ (key = "headline" -> forall d,
        dict_get "properties" d = Some (JDict entries) ->
        exists lines,
          format_alert (JDict d) = Ok (lines ++ "Headline: None" ++ nl ++ "---"))
  /\ (key = "temperatureUnit" ->
        exists before after,
          period_text (JDict entries)
          = Ok (before ++ "°None" ++ nl ++ after)).
Proof.
  intros H. split; [unfold shown; now rewrite H|]. split.
  - intros -> d Hd. rewrite (format_alert_dict _ _ Hd). unfold alert_block.
    assert (E : shown entries "headline" "No headline" = "None")
      by (unfold shown; now rewrite H).
    rewrite E. simpl join.
    exists ("Event: " ++ shown entries "event" "Unknown" ++ nl ++
            "Area: " ++ shown entries "areaDesc" "Unknown" ++ nl ++
            "Severity: " ++ shown entries "severity" "Unknown" ++ nl ++
            "Status: " ++ shown entries "status" "Unknown" ++ nl).
    repeat rewrite append_assoc. reflexivity.
  - intros ->. rewrite period_text_dict. unfold period_block.
    assert (E : shown entries "temperatureUnit" "F" = "None")
      by (unfold shown; now rewrite H).
    rewrite E. simpl join.
    exists (shown entries "name" "Unknown" ++ ":" ++ nl ++
            "Temperature: " ++ shown entries "temperature" "Unknown"),
           ("Wind: " ++ shown entries "windSpeed" "Unknown" ++ " " ++
            shown entries "windDirection" EmptyString ++ nl ++
            shown entries "shortForecast" "No forecast available" ++ nl ++ "---").
    repeat rewrite append_assoc. reflexivity.
Qed.

(** An alert whose headline is null. *)
Lemma null_member_is_shown_witness :
  exists lines,
    format_alert (JDict [("properties", JDict [("event", JStr "Flood"); ("headline", JNull)])])
    = Ok (lines ++ "Headline: None" ++ nl ++ "---").
Proof.
  exact (proj1 (proj2 (null_member_is_shown
           [("event", JStr "Flood"); ("headline", JNull)] "headline" "No headline" eq_refl))
           eq_refl [("properties", JDict [("event", JStr "Flood"); ("headline", JNull)])]
           eq_refl).
Defined.

Lemma dict_get_skip (key k : string) (v : json) (before after : list (string * json)) :
  k <> key ->
  dict_get key (before ++ (k, v) :: after) = dict_get key (before ++ after).
Proof.
  intros Hk. induction before as [|[k0 v0] l IH]; simpl.
  - destruct (String.eqb k key) eqn:E; [|reflexivity].
    apply String.eqb_eq in E. now elim Hk.
  - now rewrite IH.
Qed.

Lemma format_alert_by_properties (d d' : list (string * json)) :
  dict_get "properties" d = dict_get "properties" d' ->
  format_alert (JDict d) = format_alert (JDict d').
Proof. intros H. unfold format_alert. simpl. now rewrite H. Qed.

(** X12: the formatters read their own fields and nothing else.  In
    [format_alert] a member of the properties under a name other than the
    five it shows, and a member of the feature other than properties, can
    be dropped without changing the result; in the loop of [get_forecast]
    so can a member of the period under a name other than the six it
    shows.  The member stands anywhere among the others. *)
Theorem other_members_are_ignored (k : string) (v : json)
    (before after : list (string * json)) :
  (~ In k alert_keys -> forall d d',
     dict_get "properties" d = Some (JDict (before ++ (k, v) :: after)) ->
     dict_get "properties" d' = Some (JDict (before ++ after)) ->
     format_alert (JDict d) = format_alert (JDict d'))
  /\ (k <> "properties" ->
        format_alert (JDict (before ++ (k, v) :: after))
        = format_alert (JDict (before ++ after)))
  /\ (~ In k period_keys ->
        period_text (JDict (before ++ (k, v) :: after))
        = period_text (JDict (before ++ after))).
Proof.
  assert (Hs : forall key default, k <> key ->
             shown (before ++ (k, v) :: after) key default
             = shown (before ++ after) key default).
  { intros key default Hk. unfold shown. now rewrite (dict_get_skip key k v before after Hk). }
  split; [|split].
  - intros Hk d d' Hd Hd'.
    rewrite (format_alert_dict _ _ Hd), (format_alert_dict _ _ Hd').
    unfold alert_block.
    rewrite !Hs by (intros ->; apply Hk; simpl; tauto). reflexivity.
  - intros Hk. apply format_alert_by_properties. now apply dict_get_skip.
  - intros Hk. rewrite !period_text_dict. unfold period_block.
    rewrite !Hs by (intros ->; apply Hk; simpl; tauto). reflexivity.
Qed.

(** An alert with a description among its properties and an id beside
    them, and a period with a detailedForecast member: none is shown. *)
Lemma other_members_are_ignored_witness :
  format_alert (JDict [("properties",
                        JDict ([("event", JStr "Flood")] ++
                               ("description", JStr "Water rises.") :: []))])
  = format_alert (JDict [("properties", JDict ([("event", JStr "Flood")] ++ []))])
  /\ format_alert (JDict ([] ++ ("id", JStr "a1") ::
                          [("properties", JDict [("event", JStr "Flood")])]))
     = format_alert (JDict ([] ++ [("properties", JDict [("event", JStr "Flood")])]))
  /\ period_text (JDict ([("name", JStr "Tonight")] ++
                         ("detailedForecast", JStr "Clear and cold.") ::
                         [("temperature", JInt 40)]))
     = period_text (JDict ([("name", JStr "Tonight")] ++ [("temperature", JInt 40)])).
Proof.
  split; [|split].
  - refine (proj1 (other_members_are_ignored "description" (JStr "Water rises.")
              [("event", JStr "Flood")] []) _
              [("properties", JDict ([("event", JStr "Flood")] ++
                                     ("description", JStr "Water rises.") :: []))]
              [("properties", JDict ([("event", JStr "Flood")] ++ []))]
              eq_refl eq_refl).
    simpl. intros H. repeat (destruct H as [H|H]; [discriminate H|]). exact H.
  - refine (proj1 (proj2 (other_members_are_ignored "id" (JStr "a1") []
              [("properties", JDict [("event", JStr "Flood")])])) _).
    discriminate.
  - refine (proj2 (proj2 (other_members_are_ignored "detailedForecast"
              (JStr "Clear and cold.") [("name", JStr "Tonight")]
              [("temperature", JInt 40)])) _).
    simpl. intros H. repeat (destruct H as [H|H]; [discriminate H|]). exact H.
Defined.

(** ** A forecast URL that is not a string *)

(** X13: when the grid point body gives as [properties.forecast] a value that
    is not empty and not a string (a number, true, an array, an object),
    the client refuses it inside the [try] block of the helper: nothing is
    requested, and [get_forecast] returns the forecast data message after
    its one request. *)
Theorem forecast_url_not_a_string (http_get : upstream) (latitude longitude : float)
    (log : list string) (d p : list (string * json)) (url : json) :
  let first := points_url latitude longitude in
  response http_get log first = JDict d ->
  dict_get "properties" d = Some (JDict p) ->
  dict_get "forecast" p = Some url ->
  truthy url = true -> (forall u, url <> JStr u) ->
  make_nws_request http_get url (log ++ [first])%list = (Ok JNull, (log ++ [first])%list)
  /\ get_forecast http_get latitude longitude log
     = (Ok "Failed to retrieve forecast data", (log ++ [first])%list).
Proof.
  cbv zeta. intros Hb Hp Hu Ht Hs.
  assert (Hm : forall l, make_nws_request http_get url l = (Ok JNull, l)).
  { intros l. destruct url; try reflexivity. now elim (Hs s). }
  split; [apply Hm|].
  rewrite get_forecast_steps. cbv zeta.
  remember (points_url latitude longitude) as first eqn:Ef. clear Ef.
  rewrite Hb. rewrite (dict_truthy d (dict_get_nonempty _ _ _ Hp)). simpl.
  rewrite Hp; simpl. rewrite Hu, Ht. simpl negb. cbv iota.
  destruct url; try reflexivity. now elim (Hs s).
Qed.

(** A forecast member that is a number. *)
Lemma forecast_url_not_a_string_witness :
  run (get_forecast
         (scripted [Some (JDict [("properties", JDict [("forecast", JInt 7)])]);
                    Some (JDict [("properties", JDict [("periods", JList [JDict []])])])])
         f12_3 fm97_0892)
  = (Ok "Failed to retrieve forecast data",
     ["https://api.weather.gov/points/12.3000,-97.0892"]).
Proof.
  refine (proj2 (forecast_url_not_a_string
            (scripted [Some (JDict [("properties", JDict [("forecast", JInt 7)])]);
                       Some (JDict [("properties", JDict [("periods", JList [JDict []])])])])
            f12_3 fm97_0892 [] _ _ (JInt 7) eq_refl eq_refl eq_refl eq_refl _)).
  intros u H. discriminate H.
Defined.
